(** * Gate-level and memory analysis scripts of the FFT IP flow

    Shallow embedding of [flow/yosys/gate_analysis.py],
    [scripts/generate_memory_analysis_report.py] and the synthesis
    evaluation of [scripts/test_runner.py].

    Text is modelled as [String.string]: the text a script reads, one
    [ascii] per character.  The Python regular expressions used by the
    scripts are embedded as the matchers they denote (see [match_group_at],
    [findall_count], [module_match_at]), with Python's character classes on
    the ASCII range; Python's [\s], [\d] and [\w] also match non-ASCII
    characters, so the statements that depend on what a pattern matches
    are made for ASCII text ([is_ascii]), which is what Yosys writes.
    Python dicts are association lists in insertion order. *)

From Stdlib Require Import ZArith List Bool Lia.
From Stdlib Require Import Strings.String Strings.Ascii Numbers.DecimalString.
From Stdlib Require Import Permutation.
Import ListNotations.
Open Scope string_scope.
Open Scope Z_scope.

(* ------------------------------------------------------------------ *)
(** ** Characters and string primitives *)

Definition code (c : ascii) : nat := nat_of_ascii c.

(** Python [\s] / [str.isspace] on the ASCII range: [\t\n\v\f\r],
    the separators [\x1c]-[\x1f], and the space. *)
Definition is_space (c : ascii) : bool :=
  let n := code c in
  ((9 <=? n)%nat && (n <=? 13)%nat) || ((28 <=? n)%nat && (n <=? 32)%nat).

(** Python [\d] on the ASCII range. *)
Definition is_digit (c : ascii) : bool :=
  let n := code c in (48 <=? n)%nat && (n <=? 57)%nat.

(** Python [\w] on the ASCII range: letters, digits and [_]. *)
Definition is_word (c : ascii) : bool :=
  let n := code c in
  is_digit c || ((65 <=? n)%nat && (n <=? 90)%nat)
  || ((97 <=? n)%nat && (n <=? 122)%nat) || (n =? 95)%nat.


Definition newline : ascii := ascii_of_nat 10.
Definition colon : ascii := ":"%char.

(** [prefix p s]: [s.startswith(p)]. *)
Fixpoint prefix (p s : string) : bool :=
  match p, s with
  | EmptyString, _ => true
  | String a p', String b s' => Ascii.eqb a b && prefix p' s'
  | String _ _, EmptyString => false
  end.

(** [contains p s]: Python's [p in s]. *)
Fixpoint contains (p s : string) : bool :=
  prefix p s || match s with
                | EmptyString => false
                | String _ s' => contains p s'
                end.

(** [drop n s]: [s[n:]]. *)
Fixpoint drop (n : nat) (s : string) : string :=
  match n, s with
  | O, _ => s
  | S n', String _ s' => drop n' s'
  | S _, EmptyString => EmptyString
  end.

(** [span f s]: longest prefix of [s] whose characters satisfy [f], and
    the rest. *)
Fixpoint span (f : ascii -> bool) (s : string) : string * string :=
  match s with
  | EmptyString => (EmptyString, EmptyString)
  | String c s' =>
      if f c then let (a, b) := span f s' in (String c a, b)
      else (EmptyString, s)
  end.

(** [int(ds)] for a string of ASCII decimal digits. *)
Fixpoint digits_value_acc (acc : Z) (s : string) : Z :=
  match s with
  | EmptyString => acc
  | String c s' => digits_value_acc (10 * acc + Z.of_nat (code c - 48)) s'
  end.
Definition digits_value (s : string) : Z := digits_value_acc 0 s.

(** [str(n)] for a Python int. *)
Definition py_str_int (n : Z) : string := NilEmpty.string_of_int (Z.to_int n).

(** [s.split(sep)] for a one-character separator. *)
Fixpoint split_on (sep : ascii) (s : string) : list string :=
  match s with
  | EmptyString => [EmptyString]
  | String c s' =>
      if Ascii.eqb c sep then EmptyString :: split_on sep s'
      else match split_on sep s' with
           | h :: t => String c h :: t
           | [] => [String c EmptyString]
           end
  end.

(** [sep.join(l)] *)
Fixpoint join (sep : string) (l : list string) : string :=
  match l with
  | [] => EmptyString
  | [x] => x
  | x :: l' => x ++ sep ++ join sep l'
  end.

Definition nl : string := String newline EmptyString.

(** [s.strip()] *)
Fixpoint lstrip (s : string) : string :=
  match s with
  | String c s' => if is_space c then lstrip s' else s
  | EmptyString => EmptyString
  end.
Definition rev_string (s : string) : string :=
  string_of_list_ascii (rev (list_ascii_of_string s)).
Definition strip (s : string) : string :=
  rev_string (lstrip (rev_string (lstrip s))).

(** Python [d.get(k)] on a dict modelled as an association list. *)
Fixpoint lookup {V} (k : string) (d : list (string * V)) : option V :=
  match d with
  | [] => None
  | (k', v) :: d' => if String.eqb k k' then Some v else lookup k d'
  end.

Definition get_default {V} (k : string) (d : list (string * V)) (dflt : V) : V :=
  match lookup k d with Some v => v | None => dflt end.

(* ------------------------------------------------------------------ *)
(** ** [re.search(LABEL + r'\s+(\d+)', content)]

    At a fixed start the regex is deterministic: [\s+] and [\d+] are greedy,
    and giving back characters never helps ([\d] never matches a character
    [\s] matched).  So the match at a position is: the label, a non-empty
    run of whitespace, a non-empty run of digits; group 1 is that whole
    digit run.  [re.search] returns the leftmost position that matches. *)

Definition match_group_at (label s : string) : option string :=
  if prefix label s then
    let (ws, r1) := span is_space (drop (String.length label) s) in
    let (ds, _) := span is_digit r1 in
    match ws, ds with
    | String _ _, String _ _ => Some ds
    | _, _ => None
    end
  else None.

(** The match at [s], converted: [int(m.group(1))] when no limit applies. *)
Definition match_field_at (label s : string) : option Z :=
  option_map digits_value (match_group_at label s).

(** [re.search(...)]: group 1 of the leftmost match. *)
Fixpoint search_group (label s : string) : option string :=
  match match_group_at label s with
  | Some ds => Some ds
  | None => match s with
            | EmptyString => None
            | String _ s' => search_group label s'
            end
  end.

Fixpoint search_field (label s : string) : option Z :=
  match match_field_at label s with
  | Some n => Some n
  | None => match s with
            | EmptyString => None
            | String _ s' => search_field label s'
            end
  end.

(* ------------------------------------------------------------------ *)
(** ** [parse_synthesis_stats] (gate_analysis.py, lines 18-109) *)

(** The ten metrics, in the order the function searches them. *)
Definition stat_fields : list (string * string) :=
  [ ("cells", "Number of cells:");
    ("wires", "Number of wires:");
    ("wire_bits", "Number of wire bits:");
    ("public_wires", "Number of public wires:");
    ("public_wire_bits", "Number of public wire bits:");
    ("ports", "Number of ports:");
    ("port_bits", "Number of port bits:");
    ("memories", "Number of memories:");
    ("memory_bits", "Number of memory bits:");
    ("processes", "Number of processes:") ].

(** [cell_patterns]: gate-type tag and the literal marker [\$_X_] its
    regex [r'\\\$_X_\s+(\d+)'] looks for. *)
Definition cell_patterns : list (string * string) :=
  [ ("AND", "\$_AND_"); ("OR", "\$_OR_"); ("XOR", "\$_XOR_");
    ("XNOR", "\$_XNOR_"); ("ANDNOT", "\$_ANDNOT_"); ("NAND", "\$_NAND_");
    ("NOR", "\$_NOR_"); ("NOT", "\$_NOT_"); ("MUX", "\$_MUX_");
    ("DFF", "\$_DFF_"); ("DFFE", "\$_DFFE_"); ("LATCH", "\$_DLATCH_");
    ("ALDFFE", "\$_ALDFFE_"); ("MUL", "\$_MUL_"); ("ADD", "\$_ADD_");
    ("SUB", "\$_SUB_"); ("ROM", "\$_ROM_"); ("RAM", "\$_RAM_") ].

(** A CellBreakdown: gate-type tag to count, in insertion order. *)
Definition cell_breakdown_t := list (string * Z).

(** The returned dict: the integer metrics found, in insertion order, and
    the ['cell_breakdown'] entry, which is always present. *)
Record stats_t := mk_stats {
  metrics : list (string * Z);
  cell_breakdown : cell_breakdown_t
}.

(** [if m: d[key] = int(m.group(1))], for each [(key, label)] in turn. *)
Definition collect_matches (table : list (string * string)) (content : string)
    : list (string * Z) :=
  flat_map (fun '(key, label) =>
              match search_field label content with
              | Some n => [(key, n)]
              | None => []
              end) table.

Definition parse_synthesis_stats_content (content : string) : stats_t :=
  mk_stats (collect_matches stat_fields content)
           (collect_matches cell_patterns content).

(** The file system is a partial map from paths to contents: [None] is a
    path for which [os.path.exists] is false.  This is the dict the function
    returns when none of its [int()] calls raises; the full behaviour,
    with the [ValueError] of [int()], is [parse_synthesis_stats_exc]. *)
Definition parse_synthesis_stats (file : option string) : option stats_t :=
  match file with
  | None => None
  | Some content => Some (parse_synthesis_stats_content content)
  end.

(** A value returned, or the [ValueError] raised with its message. *)
Inductive py_result (A : Type) : Type :=
| Ok (a : A)
| ValueError (msg : string).
Arguments Ok {A} a.
Arguments ValueError {A} msg.

(** CPython's [int(ds)] on a run of decimal digits: above
    [sys.int_max_str_digits] digits (4300 by default) it raises
    [ValueError]. *)
Definition int_max_str_digits : nat := 4300.

Definition within_int_limit (ds : string) : bool :=
  (String.length ds <=? int_max_str_digits)%nat.

Definition int_limit_message (digits : nat) : string :=
  "Exceeds the limit (4300 digits) for integer string conversion: value has "
  ++ py_str_int (Z.of_nat digits)
  ++ " digits; use sys.set_int_max_str_digits() to increase the limit".

Definition py_int (ds : string) : py_result Z :=
  if within_int_limit ds then Ok (digits_value ds)
  else ValueError (int_limit_message (String.length ds)).



(* ------------------------------------------------------------------ *)
(** ** [analyze_gates] (gate_analysis.py, lines 111-201) *)

(** [len(re.findall(MARKER + r'\s+', content))]: matches do not overlap;
    after a match the scan resumes past the marker and its whitespace run. *)
Fixpoint findall_count_fuel (fuel : nat) (marker s : string) : nat :=
  match fuel with
  | O => O
  | S fuel' =>
      let rest := drop (String.length marker) s in
      match prefix marker s, span is_space rest with
      | true, (String _ _, r) => S (findall_count_fuel fuel' marker r)
      | _, _ => match s with
                | EmptyString => O
                | String _ s' => findall_count_fuel fuel' marker s'
                end
      end
  end.
Definition findall_count (marker s : string) : nat :=
  findall_count_fuel (S (String.length s)) marker s.

(** [gate_patterns]: the same markers as [cell_patterns], without the
    count group. *)
Definition gate_patterns : list (string * string) := cell_patterns.

(** [if matches: gate_counts[gate_type] = len(matches)] *)
Definition gate_counts_of (content : string) : cell_breakdown_t :=
  flat_map (fun '(gt, marker) =>
              match findall_count marker content with
              | O => []
              | S _ as n => [(gt, Z.of_nat n)]
              end) gate_patterns.

(** One match of [(\w+)\s+(\w+)\s*\(] starting exactly at [s]: group 1 and
    the text after the parenthesis.  As for [match_field_at], each greedy
    run is forced to be maximal: the next atom never matches a character
    the run could give back. *)
Definition module_match_at (s : string) : option (string * string) :=
  let (w1, r1) := span is_word s in
  let (ws, r2) := span is_space r1 in
  let (w2, r3) := span is_word r2 in
  let (_, r4) := span is_space r3 in
  match w1, ws, w2, r4 with
  | String _ _, String _ _, String _ _, String "("%char r5 => Some (w1, r5)
  | _, _, _, _ => None
  end.

(** [re.finditer(module_pattern, content)], group 1 of each match. *)
Fixpoint module_finditer_fuel (fuel : nat) (s : string) : list string :=
  match fuel with
  | O => []
  | S fuel' =>
      match module_match_at s with
      | Some (name, r) => name :: module_finditer_fuel fuel' r
      | None => match s with
                | EmptyString => []
                | String _ s' => module_finditer_fuel fuel' s'
                end
      end
  end.
Definition module_finditer (s : string) : list string :=
  module_finditer_fuel (S (String.length s)) s.

(** The exclusion list of line 157 (Python ['\\$_AND_'] is the text
    [\$_AND_]). *)
Definition excluded_names : list string :=
  [ "module"; "input"; "output"; "wire"; "\$_AND_";
    "\$_OR_"; "\$_XOR_"; "\$_XNOR_"; "\$_ANDNOT_";
    "\$_NAND_"; "\$_NOR_"; "\$_NOT_"; "\$_MUX_";
    "\$_DFF_"; "\$_DFFE_"; "\$_DLATCH_"; "\$_ALDFFE_";
    "\$_MUL_"; "\$_ADD_"; "\$_SUB_"; "\$_ROM_"; "\$_RAM_" ].

(** [if k not in d: d[k] = 0] then [d[k] += 1]. *)
Fixpoint incr (k : string) (d : list (string * Z)) : list (string * Z) :=
  match d with
  | [] => [(k, 1)]
  | (k', v) :: d' => if String.eqb k k' then (k', v + 1) :: d' else (k', v) :: incr k d'
  end.

Definition keep_module (name : string) : bool :=
  negb (existsb (String.eqb name) excluded_names) && negb (prefix "\$_" name).

Definition module_instances_of (content : string) : list (string * Z) :=
  fold_left (fun d name => if keep_module name then incr name d else d)
            (module_finditer content) [].

(** [transistor_counts] (lines 171-190). *)
Definition transistor_counts : list (string * Z) :=
  [ ("AND", 6); ("OR", 6); ("XOR", 8); ("XNOR", 8); ("ANDNOT", 4);
    ("NAND", 4); ("NOR", 4); ("NOT", 2); ("MUX", 12); ("DFF", 20);
    ("DFFE", 24); ("LATCH", 12); ("ALDFFE", 28); ("MUL", 200);
    ("ADD", 50); ("SUB", 50); ("ROM", 100); ("RAM", 150) ].

Definition sum_Z (l : list Z) : Z := fold_left Z.add l 0.

(** [sum(gate_counts.get(gate, 0) * count for gate, count in transistor_counts.items())] *)
Definition total_transistors (gate_counts : cell_breakdown_t) : Z :=
  sum_Z (map (fun '(gate, count) => get_default gate gate_counts 0 * count)
             transistor_counts).

Record gate_analysis := mk_gate_analysis {
  gate_counts : cell_breakdown_t;
  module_instances : list (string * Z);
  total_primitive_gates : Z;
  total_transistors_field : Z;
  file : string
}.

Definition analyze_gates (netlist_file : string) (contents : option string)
    : option gate_analysis :=
  match contents with
  | None => None
  | Some content =>
      let gc := gate_counts_of content in
      Some (mk_gate_analysis gc (module_instances_of content)
              (sum_Z (map snd gc)) (total_transistors gc) netlist_file)
  end.

(** The per-row cost of the legacy report (lines 535-540):
    [count * {...}.get(gate_type, 6)]. *)
Definition report_costs : list (string * Z) :=
  [ ("AND", 6); ("OR", 6); ("XOR", 8); ("XNOR", 8);
    ("ANDNOT", 4); ("NAND", 4); ("NOR", 4); ("NOT", 2);
    ("MUX", 12); ("DFF", 20); ("DFFE", 24); ("LATCH", 12); ("ALDFFE", 28);
    ("MUL", 200); ("ADD", 50); ("SUB", 50); ("ROM", 100); ("RAM", 150) ].

Definition row_transistors (gate_type : string) (count : Z) : Z :=
  count * get_default gate_type report_costs 6.

(** The specified estimate: [sum breakdown[t] * transistor_cost[t]], with
    the default weight 6 for a tag with no cost. *)
Definition spec_transistor_estimate (bd : cell_breakdown_t) : Z :=
  sum_Z (map (fun '(t, n) => row_transistors t n) bd).

(* ------------------------------------------------------------------ *)
(** ** [generate_comprehensive_gate_report] (gate_analysis.py, 230-479) *)

(** [modules] (lines 234-241): module name and display name. *)
Definition modules : list (string * string) :=
  [ ("fft_engine", "FFT Engine");
    ("fft_control", "FFT Control");
    ("rescale_unit", "Rescale Unit");
    ("scale_factor_tracker", "Scale Factor Tracker");
    ("twiddle_rom", "Twiddle ROM");
    ("memory_interface", "Memory Interface") ].

Definition stats_path (synthesis_dir module_name : string) : string :=
  synthesis_dir ++ "/reports/" ++ module_name ++ "_stats.txt".

(** Python truthiness of the returned dict: it is non-empty. *)
Definition stats_truthy (s : stats_t) : bool :=
  (0 <? List.length (metrics s) + 1)%nat.

(** [d[k] = v] on an association list. *)
Fixpoint assign {V} (k : string) (v : V) (d : list (string * V)) : list (string * V) :=
  match d with
  | [] => [(k, v)]
  | (k', v') :: d' => if String.eqb k k' then (k', v) :: d' else (k', v') :: assign k v d'
  end.

(** Lines 244-252: the per-module summary map and [total_cells]. *)
Definition collect_step (fs : string -> option string) (synthesis_dir : string)
    (acc : list (string * stats_t) * Z) (m : string * string)
    : list (string * stats_t) * Z :=
  let '(module_stats, total_cells) := acc in
  let '(module_name, display_name) := m in
  match parse_synthesis_stats (fs (stats_path synthesis_dir module_name)) with
  | Some stats =>
      if stats_truthy stats
      then (assign display_name stats module_stats,
            total_cells + get_default "cells" (metrics stats) 0)
      else (module_stats, total_cells)
  | None => (module_stats, total_cells)
  end.

Definition collect_module_stats (fs : string -> option string) (synthesis_dir : string)
    : list (string * stats_t) * Z :=
  fold_left (collect_step fs synthesis_dir) modules ([], 0).

(** [calculate_die_size_estimates] (lines 203-228) produces floats; the
    report uses them only through their [format] strings, which are
    functions of [total_cells] alone.  They are parameters of the renderer:
    [logic_area:.4f], [total_area:.4f], [lut_usage:.0f], [ff_usage:.0f]. *)
Section Comprehensive.
Variables fmt_logic_area fmt_total_area fmt_lut fmt_ff : Z -> string.

Definition components_of (display_name : string) : string :=
  if contains "FFT Engine" display_name then "Butterfly operations, pipeline"
  else if contains "FFT Control" display_name then "FSM, control logic"
  else if contains "Rescale Unit" display_name then "Overflow detection, scaling logic"
  else if contains "Scale Factor" display_name then "Scale factor tracking logic"
  else if contains "Twiddle ROM" display_name then "2048-entry ROM, address logic"
  else if contains "Memory Interface" display_name then "APB interface (reduced memory)"
  else "Core logic".

Definition str_or_dash (o : option Z) : string :=
  match o with Some n => py_str_int n | None => "-" end.

Definition summary_row (entry : string * stats_t) : string :=
  let '(display_name, stats) := entry in
  "| **" ++ display_name ++ "** | " ++ str_or_dash (lookup "cells" (metrics stats))
  ++ " | " ++ str_or_dash (lookup "wire_bits" (metrics stats))
  ++ " | " ++ str_or_dash (lookup "public_wires" (metrics stats))
  ++ " | " ++ components_of display_name ++ " |".

Definition missing_rows (module_stats : list (string * stats_t)) : list string :=
  flat_map (fun '(_, display_name) =>
              match lookup display_name module_stats with
              | Some _ => []
              | None => ["| **" ++ display_name ++ "** | - | - | - | "
                         ++ components_of display_name ++ " |"]
              end) modules.

Definition efficiency_line (entry : string * stats_t) : list string :=
  let '(display_name, stats) := entry in
  let cells := get_default "cells" (metrics stats) 0 in
  if 0 <? cells then
    let pre := "- **" ++ display_name ++ "**: " ++ py_str_int cells in
    if contains "FFT Engine" display_name then [pre ++ " cells for butterfly operations and pipeline"]
    else if contains "FFT Control" display_name then [pre ++ " cells for FSM and control logic"]
    else if contains "Rescale Unit" display_name then [pre ++ " cells for complex arithmetic operations"]
    else if contains "Scale Factor" display_name then [pre ++ " cells for scale factor tracking"]
    else if contains "Twiddle ROM" display_name then [pre ++ " cells for 2048-entry ROM (efficient)"]
    else if contains "Memory Interface" display_name then [pre ++ " cells for APB interface (simplified)"]
    else []
  else [].

(** Lines 415-429: both branches print the same row. *)
Definition status_row (display_name : string) : list string :=
  if contains "FFT Engine" display_name || contains "FFT Control" display_name
     || contains "Rescale Unit" display_name || contains "Scale Factor" display_name
  then ["| " ++ display_name ++ " | ✅ PASS | ~30s | Excellent |"]
  else if contains "Twiddle ROM" display_name then ["| " ++ display_name ++ " | ✅ PASS | ~60s | Good |"]
  else if contains "Memory Interface" display_name
  then ["| " ++ display_name ++ " | ⚠️ PARTIAL | ~30s | Simplified |"]
  else [].

Definition equals65 : string := "=================================================================".

(** The lines after the timestamp (lines 263-477). *)
Definition report_body (module_stats : list (string * stats_t)) (total_cells : Z)
    : list string :=
  [ "";
    "## 📊 Gate Count Summary";
    "";
    "| Module | Cells | Wire Bits | Public Wires | Key Components |";
    "|--------|-------|-----------|--------------|----------------|" ]
  ++ map summary_row module_stats
  ++ missing_rows module_stats
  ++ [ "";
       "### **Estimated Total Gate Count:**";
       "- **Reported Modules**: ~" ++ py_str_int total_cells ++ " cells";
       "- **Estimated Full Design**: ~"
         ++ py_str_int (if 0 <? total_cells then total_cells * 2 else 15000) ++ " cells";
       "- **Memory Interface (full)**: Would add ~50,000-100,000 cells";
       "";
       "## 🏗️ Die Size Estimates";
       "";
       "### **ASIC Implementation (45nm process):**";
       "- **Gate Density**: ~1,200,000 gates/mm²";
       "- **Logic Area**: ~" ++ fmt_logic_area total_cells ++ " mm² (core logic only)";
       "- **Memory Area**: ~0.5 mm² (including 256KB memory)";
       "- **Total Estimated Area**: ~" ++ fmt_total_area total_cells ++ " mm²";
       "";
       "### **FPGA Implementation:**";
       "- **LUT Usage**: ~" ++ fmt_lut total_cells ++ " LUTs";
       "- **BRAM Usage**: ~64 BRAM blocks (for memory)";
       "- **DSP Usage**: ~50 DSP blocks (for arithmetic)";
       "- **FF Usage**: ~" ++ fmt_ff total_cells ++ " flip-flops";
       "";
       "## ⚡ Performance Analysis";
       "";
       "### **Area Efficiency**" ]
  ++ flat_map efficiency_line module_stats
  ++ [ "- **Overall**: Good area efficiency for FFT implementation";
       "";
       "### **Design Trade-offs**";
       "- **Performance**: High-throughput FFT computation with pipeline";
       "- **Area**: Optimized for ASIC implementation";
       "- **Power**: Pipeline design for power efficiency";
       "- **Flexibility**: Configurable FFT size and scaling";
       "- **Memory**: Efficient memory usage with twiddle factor ROM";
       "";
       "## 🔧 Technology Considerations";
       "";
       "### **Standard Cell Mapping**";
       "FFT IP maps to standard cell library:";
       "- **Combinational**: AND, OR, XOR, MUX, NAND, NOR, NOT gates";
       "- **Sequential**: DFF, DFFE flip-flops";
       "- **Arithmetic**: Custom arithmetic units for butterfly operations";
       "- **Memory**: ROM macros for twiddle factors";
       "- **Compatibility**: Compatible with most CMOS processes";
       "";
       "### **Power Considerations**";
       "- **Static Power**: Moderate (sequential elements)";
       "- **Dynamic Power**: High (arithmetic operations, memory access)";
       "- **Clock Power**: Multiple clock domains";
       "- **Memory Power**: ROM/RAM access patterns";
       "";
       "### **FFT-Specific Considerations**";
       "- **Butterfly Operations**: Complex arithmetic dominates area";
       "- **Pipeline Efficiency**: Multi-stage pipeline for throughput";
       "- **Memory Bandwidth**: Twiddle factor and data memory access";
       "- **Scaling Logic**: Overflow prevention and scaling control";
       "- **Control Logic**: FSM for FFT stage management";
       "";
       "## 📈 Synthesis Quality Metrics";
       "";
       "### **Module Synthesis Status**";
       "| Module | Status | Synthesis Time | Quality |";
       "|--------|--------|----------------|---------|" ]
  ++ flat_map (fun '(_, display_name) => status_row display_name) modules
  ++ [ "";
       "### **Quality Indicators**";
       "- **✅ All core modules synthesize successfully**";
       "- **✅ No timing violations detected**";
       "- **✅ Clean logic synthesis**";
       "- **⚠️ Memory interface needs optimization**";
       "- **✅ Ready for production with improvements**";
       "";
       "## 🎯 Recommendations for Production";
       "";
       "### **1. Memory Interface Optimization**";
       "- **Option A**: Use external memory controller for large memory arrays";
       "- **Option B**: Implement memory interface with configurable memory size";
       "- **Option C**: Use memory generator for synthesis (e.g., Xilinx BRAM, Intel M20K)";
       "";
       "### **2. Synthesis Flow Improvements**";
       "- Implement incremental synthesis for faster iterations";
       "- Add synthesis constraints for timing optimization";
       "- Use vendor-specific synthesis tools for production";
       "- Add power analysis with actual switching activity";
       "";
       "### **3. Verification Strategy**";
       "- Create synthesis regression tests";
       "- Implement automated synthesis checking";
       "- Add synthesis timing analysis";
       "- Perform power analysis with realistic workloads";
       "";
       "## 🏆 Conclusion";
       "";
       "The FFT IP demonstrates excellent synthesis quality with:";
       "- **Solid core logic**: All main modules synthesize successfully";
       "- **Good area efficiency**: Reasonable gate counts for functionality";
       "- **Production ready**: Core FFT logic is ready for ASIC/FPGA implementation";
       "- **Memory optimization needed**: Large memory array requires optimization";
       "";
       "**Next Steps**:";
       "1. Implement optimized memory interface";
       "2. Add synthesis constraints and timing analysis";
       "3. Create automated synthesis regression tests";
       "4. Optimize for target FPGA/ASIC technology";
       "5. Perform power analysis with realistic workloads";
       "";
       "The IP is well-structured and synthesis-friendly, with the main issue being the large memory array in the memory interface. The core FFT logic is solid and ready for production use." ].

(** The [report] list; [now] is [datetime.now().strftime('%Y-%m-%d %H:%M:%S')]. *)
Definition comprehensive_report_lines (fs : string -> option string)
    (synthesis_dir now : string) : list string :=
  let '(module_stats, total_cells) := collect_module_stats fs synthesis_dir in
  [ "# Fast Fourier Transform IP Gate-Level Analysis Report";
    equals65;
    "";
    "Generated: " ++ now ]
  ++ report_body module_stats total_cells.

(** [return "\n".join(report)] *)
Definition generate_comprehensive_gate_report (fs : string -> option string)
    (synthesis_dir now : string) : string :=
  join nl (comprehensive_report_lines fs synthesis_dir now).

End Comprehensive.

(* ------------------------------------------------------------------ *)
(** ** [analyze_memory_usage_results] (generate_memory_analysis_report.py, 17-96) *)

(** [for line in content.split('\n'): if LABEL in line:
      v = line.split(":")[1].strip(); break] *)
Definition first_line_field (label content : string) : option string :=
  match find (contains label) (split_on newline content) with
  | Some line => Some (strip (nth 1 (split_on colon line) EmptyString))
  | None => None
  end.

Definition opt_entry (key : string) (o : option string) : list (string * string) :=
  match o with Some v => [(key, v)] | None => [] end.

(** Lines 33-56.  [lines] is bound only in the cell-count branch: when the
    text has the memory-bits label but not the cell-count label, the second
    loop raises [NameError], which the [except] catches, leaving the dict
    empty. *)
Definition memory_interface_results (file : option string) : list (string * string) :=
  match file with
  | None => []
  | Some content =>
      if contains "Number of cells:" content then
        opt_entry "cell_count" (first_line_field "Number of cells:" content)
        ++ (if contains "Number of memory bits:" content
            then opt_entry "memory_bits" (first_line_field "Number of memory bits:" content)
            else [])
      else []
  end.

(** Lines 59-75. *)
Definition twiddle_rom_results (file : option string) : list (string * string) :=
  match file with
  | None => []
  | Some content =>
      if contains "Number of cells:" content
      then opt_entry "cell_count" (first_line_field "Number of cells:" content)
      else []
  end.

(** Lines 78-94. *)
Definition overall_results (file : option string) : list (string * string) :=
  match file with
  | None => []
  | Some content =>
      if contains "Total Gate Count:" content
      then opt_entry "total_gates" (first_line_field "Total Gate Count:" content)
      else []
  end.

Record memory_results := mk_memory_results {
  memory_interface : list (string * string);
  twiddle_rom : list (string * string);
  overall_improvement : list (string * string)
}.

Definition memory_stats_path (project_root : string) : string :=
  project_root ++ "/flow/synthesis/reports/memory_interface_stats.txt".
Definition twiddle_stats_path (project_root : string) : string :=
  project_root ++ "/flow/synthesis/reports/twiddle_rom_stats.txt".
Definition gate_report_path (project_root : string) : string :=
  project_root ++ "/flow/yosys/gate_analysis_report.md".

Definition analyze_memory_usage_results (fs : string -> option string)
    (project_root : string) : memory_results :=
  mk_memory_results
    (memory_interface_results (fs (memory_stats_path project_root)))
    (twiddle_rom_results (fs (twiddle_stats_path project_root)))
    (overall_results (fs (gate_report_path project_root))).

(* ------------------------------------------------------------------ *)
(** ** [generate_memory_analysis_report] (lines 98-211)

    The report is the sequence of [f.write] arguments; the file holds
    their concatenation.  [project_name] is [Path(project_root).name] and
    [now] the [strftime] of the current time. *)

Definition is_nonempty {V} (d : list V) : bool :=
  match d with [] => false | _ => true end.

Definition opt_write (key label : string) (d : list (string * string)) : list string :=
  match lookup key d with
  | Some v => [label ++ v ++ nl]
  | None => []
  end.

Definition memory_report_writes (results : memory_results)
    (project_name now : string) : list string :=
  [ "# FFT IP Memory Usage Analysis Report" ++ nl;
    "========================================" ++ nl ++ nl;
    "**Generated:** " ++ now ++ nl;
    "**Project:** " ++ project_name ++ nl ++ nl;
    "## 🎯 Memory Usage Summary" ++ nl ++ nl;
    "### Memory Interface Analysis" ++ nl ++ nl ]
  ++ (if is_nonempty (memory_interface results)
      then ["**Current Results:**" ++ nl]
           ++ opt_write "cell_count" "- **Cell Count:** " (memory_interface results)
           ++ opt_write "memory_bits" "- **Memory Bits:** " (memory_interface results)
      else ["**Status:** No synthesis data available" ++ nl])
  ++ [ nl ++ "**Current Memory Requirements:**" ++ nl;
       "- **Memory Size:** 2048×32-bit (64KB)" ++ nl;
       "- **Address Bits:** 11-bit" ++ nl;
       "- **Expected Cell Count:** ~100-500 cells" ++ nl ++ nl;
       "### Twiddle ROM Analysis" ++ nl ++ nl ]
  ++ (if is_nonempty (twiddle_rom results)
      then ["**Current Results:**" ++ nl]
           ++ opt_write "cell_count" "- **Cell Count:** " (twiddle_rom results)
      else ["**Status:** No synthesis data available" ++ nl])
  ++ [ nl ++ "**Current Memory Requirements:**" ++ nl;
       "- **ROM Size:** 1024×16-bit (16KB)" ++ nl;
       "- **Address Bits:** 10-bit" ++ nl;
       "- **Expected Cell Count:** ~50-200 cells" ++ nl ++ nl;
       "### Overall Design Analysis" ++ nl ++ nl ]
  ++ (if is_nonempty (overall_improvement results)
      then match lookup "total_gates" (overall_improvement results) with
           | Some v => ["**Total Gate Count:** " ++ v ++ nl ++ nl]
           | None => []
           end
      else ["**Status:** Overall gate count not available" ++ nl ++ nl])
  ++ [ "**Expected Overall Results:**" ++ nl;
       "- **Total Memory:** ~80KB (64KB + 16KB)" ++ nl;
       "- **Expected Total Cells:** ~150-700 cells" ++ nl;
       "- **Memory Efficiency:** Optimized for ASIC/FPGA implementation" ++ nl ++ nl;
       "## 🔧 Current Implementation Details" ++ nl ++ nl;
       "### 1. Memory Interface" ++ nl;
       "- **Memory Size:** Reduced from 65536×32-bit to 2048×32-bit" ++ nl;
       "- **Synthesis Attributes:** Added ram_style = block" ++ nl;
       "- **Address Optimization:** Changed from 16-bit to 11-bit addressing" ++ nl;
       "- **Timing Improvements:** Added registered outputs and pipelined ready signal" ++ nl ++ nl;
       "### 2. Twiddle ROM" ++ nl;
       "- **ROM Size:** Reduced from 16K bits to 4K bits using symmetry" ++ nl;
       "- **Synthesis Attributes:** Added rom_style = block" ++ nl;
       "- **Symmetry Implementation:** Using trigonometric identities" ++ nl;
       "- **Data Width:** Changed from 32-bit to 16-bit storage" ++ nl ++ nl;
       "## 🧪 Test Results" ++ nl ++ nl;
       "**Memory Interface Tests:** ✅ PASSED" ++ nl;
       "**Twiddle ROM Tests:** ✅ PASSED" ++ nl;
       "**Synthesis Verification:** ✅ PASSED" ++ nl;
       "**All Core Modules:** ✅ Synthesize successfully" ++ nl ++ nl;
       "## 🎯 Recommendations" ++ nl ++ nl;
       "### For Production Use:" ++ nl;
       "1. **Memory Interface:** Use external memory controller for large arrays" ++ nl;
       "2. **Synthesis Flow:** Implement incremental synthesis for faster iterations" ++ nl;
       "3. **Timing Analysis:** Add synthesis constraints for optimization" ++ nl;
       "4. **Power Analysis:** Perform power analysis with realistic workloads" ++ nl ++ nl;
       "### Next Steps:" ++ nl;
       "1. **Verify on Ubuntu:** Run complete test suite to confirm improvements" ++ nl;
       "2. **Synthesis Regression:** Create automated synthesis checking" ++ nl;
       "3. **Performance Validation:** Test with real FFT workloads" ++ nl;
       "4. **Documentation Update:** Update design specs with new metrics" ++ nl ++ nl;
       "## 🏆 Conclusion" ++ nl ++ nl;
       "The FFT IP demonstrates efficient memory usage:" ++ nl;
       "- **Core Logic:** All modules synthesize successfully" ++ nl;
       "- **Memory Efficiency:** Optimized memory sizing for FFT operations" ++ nl;
       "- **Production Ready:** Ready for ASIC/FPGA implementation" ++ nl;
       "- **Performance:** Maintained functionality with efficient area usage" ++ nl ++ nl;
       "The IP is ready for production use with the current memory implementation." ++ nl ].

(** The text written to [memory_analysis_report.md]. *)
Definition generate_memory_analysis_report (fs : string -> option string)
    (project_root project_name now : string) : string :=
  String.concat EmptyString
    (memory_report_writes (analyze_memory_usage_results fs project_root) project_name now).

(* ------------------------------------------------------------------ *)
(** ** [TestRunner._evaluate_synthesis_results] (test_runner.py, 310-337)

    The verdict is the status [print_status] is called with; a module the
    method does not know prints nothing ([None]). *)

Inductive status := SUCCESS | WARNING.

(** The cell thresholds of [self.expected_results]. *)
Record expected_results := mk_expected {
  expected_memory_interface : Z;
  expected_twiddle_rom : Z;
  expected_total : Z
}.

(** The values set in [TestRunner.__init__] (lines 55-68). *)
Definition default_expected_results : expected_results := mk_expected 1000 2000 15000.

Definition evaluate_synthesis_results (er : expected_results) (module : string)
    (cell_count : Z) : option status :=
  if String.eqb module "memory_interface" then
    Some (if cell_count <? expected_memory_interface er then SUCCESS else WARNING)
  else if String.eqb module "twiddle_rom" then
    Some (if expected_twiddle_rom er <? cell_count then SUCCESS else WARNING)
  else if String.eqb module "comprehensive" then
    Some (if cell_count <? expected_total er then SUCCESS else WARNING)
  else None.

(* ------------------------------------------------------------------ *)
(** ** [generate_gate_report] (gate_analysis.py, 481-651): the legacy
    report, built from the netlist. *)

Definition legacy_netlist_path : string := "../synthesis/netlists/fft_top_synth_generic.v".

(** [results[impl_name] = analyze_gates(netlist_path)] when the path exists. *)
Definition legacy_results (fs : string -> option string)
    : list (string * option gate_analysis) :=
  match fs legacy_netlist_path with
  | Some _ => [("FFT Top", analyze_gates legacy_netlist_path (fs legacy_netlist_path))]
  | None => []
  end.

(** The list of lines 513 and 561 (Python ['\\$_AND_'] is the text [\$_AND_]). *)
Definition legacy_excluded : list string :=
  [ "\$_AND_"; "\$_OR_"; "\$_XOR_"; "\$_XNOR_"; "\$_ANDNOT_" ].

(** [actual_modules = {k: v for k, v in module_instances.items()
      if not k.startswith('_') and k not in [...]}] *)
Definition actual_modules (mi : list (string * Z)) : list (string * Z) :=
  filter (fun '(k, _) => negb (prefix "_" k) && negb (existsb (String.eqb k) legacy_excluded)) mi.

Definition design_style (r : gate_analysis) : string :=
  if is_nonempty (actual_modules (module_instances r)) then "Hierarchical" else "Flat".

(** [sorted(gate_counts.items())]: the keys of a dict are distinct, so the
    order is that of the keys ([str] order is code-point order). *)
Fixpoint insert_item (x : string * Z) (l : list (string * Z)) : list (string * Z) :=
  match l with
  | [] => [x]
  | y :: l' => if String.leb (fst x) (fst y) then x :: l else y :: insert_item x l'
  end.
Definition sort_items (l : list (string * Z)) : list (string * Z) :=
  fold_right insert_item [] l.

(** The Gate Breakdown rows (lines 532-541): type, count, transistors. *)
Definition breakdown_rows (gc : cell_breakdown_t) : list (string * Z * Z) :=
  map (fun '(g, n) => (g, n, row_transistors g n)) (sort_items gc).

(** Lines 575-581. *)
Definition sequential_tags : list string := ["DFF"; "DFFE"; "LATCH"; "ALDFFE"].
Definition dff_count (gc : cell_breakdown_t) : Z :=
  get_default "DFF" gc 0 + get_default "DFFE" gc 0.
Definition combinational_gates (gc : cell_breakdown_t) : Z :=
  sum_Z (map snd (filter (fun '(g, _) => negb (existsb (String.eqb g) sequential_tags)) gc)).
Definition arithmetic_units (gc : cell_breakdown_t) : Z :=
  get_default "MUL" gc 0 + get_default "ADD" gc 0 + get_default "SUB" gc 0.
Definition memory_units (gc : cell_breakdown_t) : Z :=
  get_default "ROM" gc 0 + get_default "RAM" gc 0.

(** The two float fields are parameters, as for the comprehensive report:
    [fmt_ratio d c] is [f"{d/(c+1):.2f}"] and [fmt_kilo t] is
    [f"{t/1000:.1f}"]. *)
Section Legacy.
Variables (fmt_ratio : Z -> Z -> string) (fmt_kilo : Z -> string).

Definition legacy_summary_line (entry : string * option gate_analysis) : list string :=
  let '(impl_name, res) := entry in
  match res with
  | Some r => ["| " ++ impl_name ++ " | " ++ py_str_int (total_primitive_gates r) ++ " | "
               ++ py_str_int (total_transistors_field r) ++ " | " ++ design_style r ++ " |"]
  | None => []
  end.

Definition legacy_detail_lines (entry : string * option gate_analysis) : list string :=
  let '(impl_name, res) := entry in
  match res with
  | None => []
  | Some r =>
      let gc := gate_counts r in
      [ "## " ++ impl_name ++ " Implementation"; ""; "### Gate Breakdown"; "" ]
      ++ (if is_nonempty gc
          then [ "| Gate Type | Count | Transistors |";
                 "|-----------|-------|-------------|" ]
               ++ map (fun '(g, n, t) =>
                         "| " ++ g ++ " | " ++ py_str_int n ++ " | " ++ py_str_int t ++ " |")
                      (breakdown_rows gc)
          else [ "No primitive gates found." ])
      ++ [ "" ]
      ++ (if is_nonempty (module_instances r)
          then [ "### Module Instances"; ""; "| Module | Instances |"; "|--------|-----------|" ]
               ++ map (fun '(m, c) => "| " ++ m ++ " | " ++ py_str_int c ++ " |")
                      (module_instances r)
               ++ [ "" ]
          else [])
      ++ [ "### Total Statistics";
           "";
           "- **Primitive Gates**: " ++ py_str_int (total_primitive_gates r);
           "- **Estimated Transistors**: " ++ py_str_int (total_transistors_field r);
           "- **Design Style**: " ++ design_style r;
           "";
           "### Logic Complexity Analysis";
           "";
           "- **Sequential Elements**: " ++ py_str_int (dff_count gc) ++ " flip-flops";
           "- **Combinational Logic**: " ++ py_str_int (combinational_gates gc) ++ " gates";
           "- **Arithmetic Units**: " ++ py_str_int (arithmetic_units gc) ++ " (MUL/ADD/SUB)";
           "- **Memory Units**: " ++ py_str_int (memory_units gc) ++ " (ROM/RAM)";
           "- **Sequential/Combinational Ratio**: " ++ fmt_ratio (dff_count gc) (combinational_gates gc);
           "- **FFT Algorithm**: Radix-2 Decimation-in-Time (DIT)";
           "- **Pipeline Stages**: Multi-stage pipeline for high throughput";
           "- **Butterfly Operations**: Complex arithmetic for FFT computation";
           "- **Twiddle Factor ROM**: Pre-computed twiddle factors";
           "- **Memory Interface**: APB slave interface for data transfer";
           "- **Scaling Control**: Dynamic scaling for overflow prevention";
           "" ]
  end.

Definition legacy_area_lines (results : list (string * option gate_analysis)) : list string :=
  match results with
  | (_, Some r) :: _ =>
      [ "- **Gate Count**: " ++ py_str_int (total_primitive_gates r) ++ " primitive gates";
        "- **Transistor Count**: " ++ py_str_int (total_transistors_field r) ++ " transistors";
        "- **Area Estimate**: ~" ++ fmt_kilo (total_transistors_field r) ++ "K transistors" ]
  | _ => []
  end.

Definition legacy_report_lines (fs : string -> option string) (now : string) : list string :=
  let results := legacy_results fs in
  [ "# Fast Fourier Transform IP Gate-Level Analysis Report";
    equals65;
    "";
    "Generated: " ++ now;
    "";
    "## Gate Count Summary";
    "";
    "| Implementation | Primitive Gates | Transistors | Design Style |";
    "|----------------|-----------------|-------------|--------------|" ]
  ++ flat_map legacy_summary_line results
  ++ [ "" ]
  ++ flat_map legacy_detail_lines results
  ++ [ "## Performance Analysis"; ""; "### Area Efficiency"; "" ]
  ++ legacy_area_lines results
  ++ [ "";
       "### Design Trade-offs";
       "";
       "- **Performance**: High-throughput FFT computation";
       "- **Area**: Optimized for ASIC implementation";
       "- **Power**: Pipeline design for power efficiency";
       "- **Flexibility**: Configurable FFT size and scaling";
       "- **Memory**: Efficient memory usage with twiddle factor ROM";
       "";
       "## Technology Considerations";
       "";
       "### Standard Cell Mapping";
       "";
       "FFT IP maps to standard cell library:";
       "- Combinational gates (AND, OR, XOR, MUX)";
       "- Sequential elements (DFF, DFFE)";
       "- Arithmetic units (MUL, ADD, SUB)";
       "- Memory macros (ROM, RAM)";
       "- Compatible with most CMOS processes";
       "";
       "### Power Considerations";
       "";
       "- **Static Power**: Moderate (sequential elements)";
       "- **Dynamic Power**: High (arithmetic operations)";
       "- **Clock Power**: Multiple clock domains";
       "- **Memory Power**: ROM/RAM access patterns";
       "";
       "### FFT-Specific Considerations";
       "";
       "- **Butterfly Operations**: Complex arithmetic dominates area";
       "- **Pipeline Efficiency**: Multi-stage pipeline for throughput";
       "- **Memory Bandwidth**: Twiddle factor and data memory access";
       "- **Scaling Logic**: Overflow prevention and scaling control";
       "- **Control Logic**: FSM for FFT stage management";
       "" ].

Definition generate_gate_report (fs : string -> option string) (now : string) : string :=
  join nl (legacy_report_lines fs now).

End Legacy.

(* ------------------------------------------------------------------ *)
(** ** The test runner's synthesis and verification steps (test_runner.py)

    The runner's state is [self.synthesis_results] and the messages
    [print_status] prints, in order.  The outcome of each Yosys run is an
    input: its return code and standard error, by module name
    (["comprehensive"] for the comprehensive run); the report files are
    read as they are after the runs.  Writing the Yosys scripts is taken to
    succeed. *)

Record runner := mk_runner {
  synthesis_results : list (string * list (string * Z));
  log : list (string * string)
}.

Definition print_status (st : runner) (status message : string) : runner :=
  mk_runner (synthesis_results st) (log st ++ [(status, message)]).

Definition status_name (v : status) : string :=
  match v with SUCCESS => "SUCCESS" | WARNING => "WARNING" end.

(** The messages of [_evaluate_synthesis_results] (lines 310-337). *)
Definition evaluation_message (er : expected_results) (module : string) (v : status)
    (cell_count : Z) : string :=
  let n := py_str_int cell_count in
  if String.eqb module "memory_interface" then
    let e := py_str_int (expected_memory_interface er) in
    match v with
    | SUCCESS => "Memory interface optimization successful: " ++ n ++ " < " ++ e
    | WARNING => "Memory interface cell count higher than expected: " ++ n ++ " >= " ++ e
    end
  else if String.eqb module "twiddle_rom" then
    let e := py_str_int (expected_twiddle_rom er) in
    match v with
    | SUCCESS => "Twiddle ROM optimization successful: " ++ n ++ " > " ++ e
    | WARNING => "Twiddle ROM cell count lower than expected: " ++ n ++ " <= " ++ e
    end
  else
    let e := py_str_int (expected_total er) in
    match v with
    | SUCCESS => "Overall optimization successful: " ++ n ++ " < " ++ e
    | WARNING => "Overall cell count higher than expected: " ++ n ++ " >= " ++ e
    end.

Definition evaluate_step (er : expected_results) (module : string) (cell_count : Z)
    (st : runner) : runner :=
  match evaluate_synthesis_results er module cell_count with
  | Some v => print_status st (status_name v) (evaluation_message er module v cell_count)
  | None => st
  end.

(** [self.reports_dir / f"{module}_synthesis_report.txt"] *)
Definition synthesis_report_path (reports_dir module : string) : string :=
  reports_dir ++ "/" ++ module ++ "_synthesis_report.txt".

(** [_analyze_synthesis_results] (lines 283-308): the [except] branch
    (lines 307-308) catches the [ValueError] of [int()]. *)
Definition analyze_synthesis_results (er : expected_results) (reports_dir : string)
    (fs : string -> option string) (module : string) (st : runner) : runner :=
  let report_file := synthesis_report_path reports_dir module in
  match fs report_file with
  | None => print_status st "WARNING" ("Synthesis report not found: " ++ report_file)
  | Some report_content =>
      match search_group "Number of cells:" report_content with
      | Some ds =>
          match py_int ds with
          | Ok cell_count =>
              let st1 := mk_runner (assign module [("cells", cell_count)] (synthesis_results st))
                                   (log st) in
              evaluate_step er module cell_count
                (print_status st1 "INFO" (module ++ " cell count: " ++ py_str_int cell_count))
          | ValueError msg =>
              print_status st "ERROR" ("Error analyzing " ++ module ++ " results: " ++ msg)
          end
      | None =>
          print_status st "WARNING" ("Could not extract cell count from " ++ module ++ " report")
      end
  end.

(** [_run_module_synthesis] (lines 199-238) after the script is written. *)
Definition run_module_synthesis (er : expected_results) (reports_dir : string)
    (fs : string -> option string) (yosys : string -> Z * string) (module : string)
    (st : runner) : bool * runner :=
  let '(returncode, stderr) := yosys module in
  if Z.eqb returncode 0
  then (true, analyze_synthesis_results er reports_dir fs module st)
  else (false, print_status st "ERROR" ("Yosys synthesis failed: " ++ stderr)).

(** [_run_comprehensive_synthesis] (lines 240-281). *)
Definition run_comprehensive_synthesis (er : expected_results) (reports_dir : string)
    (fs : string -> option string) (yosys : string -> Z * string)
    (st : runner) : bool * runner :=
  let '(returncode, stderr) := yosys "comprehensive" in
  if Z.eqb returncode 0
  then (true, analyze_synthesis_results er reports_dir fs "comprehensive" st)
  else (false, print_status st "ERROR" ("Comprehensive synthesis failed: " ++ stderr)).

(** [self.test_modules] (lines 48-52). *)
Definition test_modules : list string := ["memory_interface"; "twiddle_rom"; "fft_control"].

Definition module_synthesis_step (er : expected_results) (reports_dir : string)
    (fs : string -> option string) (yosys : string -> Z * string)
    (acc : bool * runner) (module : string) : bool * runner :=
  let '(all_passed, st) := acc in
  let '(ok, st') := run_module_synthesis er reports_dir fs yosys module st in
  if ok then (all_passed, print_status st' "SUCCESS" (module ++ " synthesis completed"))
  else (false, print_status st' "ERROR" (module ++ " synthesis failed")).

(** [run_synthesis_tests] (lines 172-197); creating the directories is not
    modelled. *)
Definition run_synthesis_tests (er : expected_results) (reports_dir : string)
    (fs : string -> option string) (yosys : string -> Z * string)
    (st : runner) : bool * runner :=
  let st0 := print_status st "INFO" "Running synthesis tests..." in
  let '(all_passed, st1) :=
    fold_left (module_synthesis_step er reports_dir fs yosys) test_modules (true, st0) in
  let '(ok, st2) := run_comprehensive_synthesis er reports_dir fs yosys st1 in
  if ok then (all_passed, print_status st2 "SUCCESS" "Comprehensive synthesis completed")
  else (false, print_status st2 "ERROR" "Comprehensive synthesis failed").

(** The RTL checks of [run_verification_tests] (lines 339-447). *)
Definition dq : string := String (ascii_of_nat 34) EmptyString.

Definition rtl_path (rtl_dir module : string) : string := rtl_dir ++ "/" ++ module ++ ".sv".

(** One [if file.exists(): if MARKER in content: SUCCESS else: ERROR]. *)
Definition check_marker (file : option string) (marker ok_msg err_msg : string)
    (acc : bool * runner) : bool * runner :=
  let '(all_passed, st) := acc in
  match file with
  | None => (all_passed, st)
  | Some content =>
      if contains marker content then (all_passed, print_status st "SUCCESS" ok_msg)
      else (false, print_status st "ERROR" err_msg)
  end.

Definition verify_memory_size (fs : string -> option string) (rtl_dir : string)
    (st : runner) : bool * runner :=
  let st0 := print_status st "INFO" "Verifying memory size requirements..." in
  check_marker (fs (rtl_path rtl_dir "twiddle_rom")) "rom_memory [ROM_SIZE-1:0]"
    "ROM size structure correct" "ROM size structure incorrect in twiddle_rom.sv"
    (check_marker (fs (rtl_path rtl_dir "memory_interface")) "fft_memory [0:2047]"
       "Memory size correct: 2048 x 32-bit = 64K bits"
       "Memory size incorrect in memory_interface.sv" (true, st0)).

Definition verify_synthesis_attributes (fs : string -> option string) (rtl_dir : string)
    (st : runner) : bool * runner :=
  let st0 := print_status st "INFO" "Verifying synthesis attributes..." in
  check_marker (fs (rtl_path rtl_dir "twiddle_rom")) ("rom_style = " ++ dq ++ "block" ++ dq)
    "rom_style attribute found in twiddle_rom.sv"
    "rom_style attribute not found in twiddle_rom.sv"
    (check_marker (fs (rtl_path rtl_dir "memory_interface")) ("ram_style = " ++ dq ++ "block" ++ dq)
       "ram_style attribute found in memory_interface.sv"
       "ram_style attribute not found in memory_interface.sv" (true, st0)).

Definition code_quality_step (fs : string -> option string) (rtl_dir : string)
    (acc : bool * runner) (module : string) : bool * runner :=
  let file := fs (rtl_path rtl_dir module) in
  check_marker file "posedge clk_i"
    ("Clock signal found in " ++ module ++ ".sv") ("Clock signal not found in " ++ module ++ ".sv")
    (check_marker file "reset_n_i"
       ("Reset signal found in " ++ module ++ ".sv") ("Reset signal not found in " ++ module ++ ".sv")
       acc).

Definition verify_code_quality (fs : string -> option string) (rtl_dir : string)
    (st : runner) : bool * runner :=
  let st0 := print_status st "INFO" "Verifying code quality..." in
  fold_left (code_quality_step fs rtl_dir) ["memory_interface"; "twiddle_rom"] (true, st0).

(** [if check(): SUCCESS else: ERROR; all_passed = False] *)
Definition verification_step (check : runner -> bool * runner) (ok_msg err_msg : string)
    (acc : bool * runner) : bool * runner :=
  let '(all_passed, st) := acc in
  let '(ok, st') := check st in
  if ok then (all_passed, print_status st' "SUCCESS" ok_msg)
  else (false, print_status st' "ERROR" err_msg).

Definition run_verification_tests (fs : string -> option string) (rtl_dir : string)
    (st : runner) : bool * runner :=
  let st0 := print_status st "INFO" "Running verification tests..." in
  verification_step (verify_code_quality fs rtl_dir)
    "Code quality verification passed" "Code quality verification failed"
    (verification_step (verify_synthesis_attributes fs rtl_dir)
       "Synthesis attributes verification passed" "Synthesis attributes verification failed"
       (verification_step (verify_memory_size fs rtl_dir)
          "Memory size verification passed" "Memory size verification failed"
          (true, st0))).

(** The strings each RTL file must contain for the checks to pass. *)
Definition rtl_markers (module : string) : list string :=
  (if String.eqb module "memory_interface"
   then ["fft_memory [0:2047]"; "ram_style = " ++ dq ++ "block" ++ dq]
   else ["rom_memory [ROM_SIZE-1:0]"; "rom_style = " ++ dq ++ "block" ++ dq])
  ++ ["reset_n_i"; "posedge clk_i"].

(** [check_dependencies] (lines 85-102); [tool_available t] is the outcome
    of [_command_exists t] (lines 104-111). *)
Definition required_tools : list string := ["yosys"; "iverilog"; "vvp"].

Definition check_dependencies (tool_available : string -> bool) (st : runner) : bool * runner :=
  let st0 := print_status st "INFO" "Checking dependencies..." in
  match filter (fun tool => negb (tool_available tool)) required_tools with
  | [] => (true, print_status st0 "SUCCESS" "All dependencies available")
  | missing_tools =>
      (false, print_status (print_status st0 "ERROR" ("Missing tools: " ++ join ", " missing_tools))
                "INFO" "Please install missing tools and try again")
  end.

(** [run_simulation_tests] (lines 113-136).  [simulate test_name] is the
    outcome of [_run_simulation_test] (lines 138-170): whether it passed and
    the messages it printed. *)
Definition simulation_test_files : list (string * string) :=
  [ ("tb_memory_interface_opt.sv", "memory_interface_opt");
    ("tb_twiddle_rom_symmetry.sv", "twiddle_rom_symmetry") ].

Definition simulation_step (fs : string -> option string) (tb_dir : string)
    (simulate : string -> bool * list (string * string))
    (acc : bool * runner) (test : string * string) : bool * runner :=
  let '(all_passed, st) := acc in
  let '(test_file, test_name) := test in
  match fs (tb_dir ++ "/" ++ test_file) with
  | Some _ =>
      let st1 := print_status st "INFO" ("Testing " ++ test_name ++ "...") in
      let '(passed, messages) := simulate test_name in
      let st2 := mk_runner (synthesis_results st1) (log st1 ++ messages) in
      if passed then (all_passed, print_status st2 "SUCCESS" (test_name ++ " test passed"))
      else (false, print_status st2 "ERROR" (test_name ++ " test failed"))
  | None => (all_passed, print_status st "WARNING" ("Test file not found: " ++ test_file))
  end.

Definition run_simulation_tests (fs : string -> option string) (tb_dir : string)
    (simulate : string -> bool * list (string * string)) (st : runner) : bool * runner :=
  fold_left (simulation_step fs tb_dir simulate) simulation_test_files
            (true, print_status st "INFO" "Running simulation tests...").

(** [generate_report] (lines 449-497): the text written to
    [python_test_report.md]; [now] is [time.strftime(...)]. *)
Definition cell_count_text (results : list (string * Z)) : string :=
  match lookup "cells" results with Some n => py_str_int n | None => "N/A" end.

Definition result_lines (synthesis_results : list (string * list (string * Z))) : list string :=
  map (fun '(module, results) =>
         "- **" ++ module ++ "**: " ++ cell_count_text results ++ " cells" ++ nl)
      synthesis_results.

Definition report_footer : string :=
  join nl
    [ "";
       "## Optimization Summary";
       "- **Memory Interface**: Synthesis attributes applied (ram_style = 'block')";
       "- **Memory Size**: Corrected from 65536√ó32-bit to 2048√ó32-bit (64K bits)";
       "- **Address Width**: Optimized from 16-bit to 11-bit";
       "- **Twiddle ROM**: Symmetry optimization implemented (4x size reduction)";
       "- **ROM Size**: Reduced from 2048√ó32-bit to 1024√ó16-bit (4K bits)";
       "";
       "## Recommendations";
       "1. Verify synthesis reports for memory macro usage";
       "2. Check timing constraints for optimized design";
       "3. Validate functionality with comprehensive simulation";
       "4. Compare gate count with previous baseline";
       "";
       "## Next Steps";
       "1. Run physical synthesis with vendor tools";
       "2. Implement memory generators for production";
       "3. Add advanced symmetry optimizations";
       "4. Optimize for specific target technology";
       "" ].

Definition report_content (er : expected_results) (now : string)
    (synthesis_results : list (string * list (string * Z))) : string :=
  join nl
    [ "# FFT IP Memory Optimization Test Report";
      "";
      "## Test Summary";
      "- **Test Date**: " ++ now;
      "- **Test Runner**: Python Test Runner";
      "- **Test Modules**: " ++ join ", " test_modules;
      "";
      "## Expected Results";
      "- **Memory Interface**: < " ++ py_str_int (expected_memory_interface er)
        ++ " cells (down from 67,754)";
      "- **Twiddle ROM**: > " ++ py_str_int (expected_twiddle_rom er) ++ " cells (up from 85)";
      "- **Total Design**: < " ++ py_str_int (expected_total er) ++ " cells (down from 74,217)";
      "";
      "## Test Results";
      "" ]
  ++ String.concat "" (result_lines synthesis_results)
  ++ report_footer.

Definition generate_report (er : expected_results) (reports_dir now : string) (st : runner)
    : runner * string :=
  let st0 := print_status st "INFO" "Generating test report..." in
  (print_status st0 "SUCCESS" ("Test report generated: " ++ reports_dir ++ "/python_test_report.md"),
   report_content er now (synthesis_results st0)).

(** [run_all_tests] (lines 499-535): the verdict, the final state and the
    report written, if any.  The directories are those of [__init__];
    [duration] is the formatted [f"{duration:.2f}"]. *)
Definition run_all_tests (er : expected_results) (project_root rtl_dir tb_dir reports_dir : string)
    (fs : string -> option string) (tool_available : string -> bool)
    (simulate : string -> bool * list (string * string)) (yosys : string -> Z * string)
    (now duration : string) (st : runner) : bool * runner * option string :=
  let st0 := print_status (print_status st "INFO" "Starting FFT IP Memory Optimization Test Suite")
               "INFO" ("Project Root: " ++ project_root) in
  let '(deps_ok, st1) := check_dependencies tool_available st0 in
  if negb deps_ok then (false, st1, None) else
  let '(verify_ok, st2) := run_verification_tests fs rtl_dir st1 in
  if negb verify_ok then (false, print_status st2 "ERROR" "Verification tests failed", None) else
  let '(sim_ok, st3) := run_simulation_tests fs tb_dir simulate st2 in
  if negb sim_ok then (false, print_status st3 "ERROR" "Simulation tests failed", None) else
  let '(synth_ok, st4) := run_synthesis_tests er reports_dir fs yosys st3 in
  if negb synth_ok then (false, print_status st4 "ERROR" "Synthesis tests failed", None) else
  let '(st5, content) := generate_report er reports_dir now st4 in
  let st6 := print_status (print_status (print_status st5 "SUCCESS"
               "FFT IP Memory Optimization Test Suite completed successfully!")
               "INFO" ("Total test duration: " ++ duration ++ " seconds"))
               "INFO" ("Check reports in: " ++ reports_dir) in
  (true, st6, Some content).

(* ------------------------------------------------------------------ *)
(** ** The sample word of the cocotb helpers (tb/cocotb/test_fft_edge_cases.py)

    [load_input_data] (lines 320-327) writes a sample as
    [(real_part << 16) | imag_part] with each part [int(x * 32767) & 0xFFFF];
    [read_output_data] (lines 346-358) splits a word read back into
    [(w >> 16) & 0xFFFF] and [w & 0xFFFF] before dividing by [32767.0].
    The scaled parts [int(x * 32767)] are the integer inputs. *)
Definition pack_sample (real_int imag_int : Z) : Z :=
  Z.lor (Z.shiftl (Z.land real_int 65535) 16) (Z.land imag_int 65535).

Definition unpack_word (data_word : Z) : Z * Z :=
  (Z.land (Z.shiftr data_word 16) 65535, Z.land data_word 65535).

(* ------------------------------------------------------------------ *)
(** ** Auxiliary definitions of the proofs *)

(** The breakdown [{NOT: 10, MUX: 5, DFF: 2}] of the specification. *)
Definition example_breakdown : cell_breakdown_t := [("NOT", 10); ("MUX", 5); ("DFF", 2)].



Definition module_entry (fs : string -> option string) (synthesis_dir : string)
    (m : string * string) : list (string * stats_t) :=
  let '(module_name, display_name) := m in
  match fs (stats_path synthesis_dir module_name) with
  | Some content => [(display_name, parse_synthesis_stats_content content)]
  | None => []
  end.

Definition module_cells (fs : string -> option string) (synthesis_dir : string)
    (m : string * string) : Z :=
  let '(module_name, _) := m in
  match fs (stats_path synthesis_dir module_name) with
  | Some content =>
      match lookup "cells" (metrics (parse_synthesis_stats_content content)) with
      | Some n => n
      | None => 0
      end
  | None => 0
  end.





Definition findall_opt (content marker : string) : option Z :=
  match findall_count marker content with
  | O => None
  | S _ as n => Some (Z.of_nat n)
  end.




Definition engine_stats_fs : string -> option string :=
  fun p => if String.eqb p (stats_path "../synthesis" "fft_engine")
           then Some ("Number of cells:   1234" ++ nl) else None.

Definition report_fs (doc : string) : string -> option string :=
  fun p => if String.eqb p (gate_report_path ".") then Some doc else None.

Definition module_entry_ok (e : string * Z) : Prop :=
  1 <= snd e /\ keep_module (fst e) = true.

Definition cells_entry (e : string * list (string * Z)) : Prop :=
  exists n, snd e = [("cells", n)].

Definition example_netlist : string :=
  "\$_AND_  _1_ (" ++ nl ++ "\$_AND_ _2_ (" ++ nl ++ "\$_NOT_ _3_ (" ++ nl ++ "sub u0 (" ++ nl.

Definition example_analysis : gate_analysis :=
  mk_gate_analysis [("AND", 2); ("NOT", 1)] [("_AND_", 2); ("_NOT_", 1); ("sub", 1)] 3 14 "n.v".

(* ================================================================== *)
(** * Lemmas on the string and list primitives *)

Example parse_synthesis_stats_ex :
  parse_synthesis_stats
    (Some ("Number of cells:      1234" ++ nl ++ "Number of wires:       56" ++ nl))
  = Some (mk_stats [("cells", 1234); ("wires", 56)] []).
Proof. reflexivity. Qed.

Example analyze_gates_ex :
  analyze_gates "n.v" (Some ("\$_AND_  _1_ (" ++ nl ++ "\$_AND_ _2_ (" ++ nl
                            ++ "\$_NOT_ _3_ (" ++ nl ++ "sub u0 (" ++ nl))
  = Some (mk_gate_analysis [("AND", 2); ("NOT", 1)]
            [("_AND_", 2); ("_NOT_", 1); ("sub", 1)] 3 14 "n.v").
Proof. vm_compute. reflexivity. Qed.

Lemma sum_Z_acc : forall l a, fold_left Z.add l a = a + sum_Z l.
Proof.
  induction l as [|x l IH]; intro a; unfold sum_Z; simpl; [lia|].
  rewrite (IH (a + x)), (IH x). lia.
Qed.

Lemma sum_Z_cons : forall x l, sum_Z (x :: l) = x + sum_Z l.
Proof. intros x l. unfold sum_Z at 1. simpl. rewrite sum_Z_acc. lia. Qed.

Lemma sum_Z_map_add {A} (f g : A -> Z) (l : list A) :
  sum_Z (map (fun x => f x + g x) l) = sum_Z (map f l) + sum_Z (map g l).
Proof.
  induction l as [|x l IH]; [reflexivity|].
  simpl map. rewrite !sum_Z_cons, IH. lia.
Qed.

Lemma lookup_not_in {V} (k : string) (d : list (string * V)) :
  ~ In k (map fst d) -> lookup k d = None.
Proof.
  induction d as [|[k' v] d IH]; simpl; intro H; [reflexivity|].
  destruct (String.eqb_spec k k') as [->|_]; [tauto|].
  apply IH. tauto.
Qed.

Lemma report_costs_eq : report_costs = transistor_counts.
Proof. reflexivity. Qed.

(** One gate type weighs in the table-driven sum exactly by its cost. *)
Lemma table_sum_single (k : string) (v : Z) :
  In k (map fst transistor_counts) ->
  sum_Z (map (fun '(g, c) => (if String.eqb g k then v else 0) * c) transistor_counts)
  = v * get_default k report_costs 6.
Proof.
  intro Hk. simpl in Hk.
  repeat (destruct Hk as [<-|Hk]; [cbn -[Z.add Z.mul]; lia|]). contradiction.
Qed.

(* ================================================================== *)
(** * Claims *)

(** ** Transistor estimate *)

(** C1: for every CellBreakdown (gate-type tags, each at most once, as a
    dict has them), the transistor total of [analyze_gates] equals the sum
    over the breakdown of count times the per-type cost, a type missing
    from the cost table weighing 6; the equality is exact on integers. *)
Theorem transistor_estimate_exact (bd : cell_breakdown_t) :
  NoDup (map fst bd) ->
  (forall t n, In (t, n) bd -> In t (map fst transistor_counts)) ->
  total_transistors bd = spec_transistor_estimate bd.
Proof.
  induction bd as [|[k v] bd IH]; intros Hnd Htags.
  - vm_compute. reflexivity.
  - simpl in Hnd. inversion Hnd as [|? ? Hk Hnd']; subst.
    assert (Hin : In k (map fst transistor_counts)) by (apply (Htags k v); left; reflexivity).
    unfold spec_transistor_estimate. simpl map. rewrite sum_Z_cons.
    fold (spec_transistor_estimate bd).
    rewrite <- IH by (exact Hnd' || (intros t n H; apply (Htags t n); right; exact H)).
    unfold total_transistors, row_transistors.
    rewrite <- table_sum_single by exact Hin.
    rewrite <- sum_Z_map_add. f_equal. apply map_ext. intros [g c].
    unfold get_default. simpl lookup.
    destruct (String.eqb_spec g k) as [->|_].
    + rewrite lookup_not_in by exact Hk. lia.
    + lia.
Qed.

Lemma transistor_estimate_exact_witness :
  total_transistors example_breakdown = 120
  /\ total_transistors example_breakdown = spec_transistor_estimate example_breakdown.
Proof.
  split.
  - vm_compute. reflexivity.
  - apply transistor_estimate_exact.
    + vm_compute. repeat constructor; simpl; intuition discriminate.
    + intros t n H. simpl in H.
      repeat (destruct H as [H|H]; [injection H as <- <-; vm_compute; tauto|]).
      contradiction.
Defined.

(** ** Lemmas on the regex search *)












(** ** The error path of [int()] *)














(** ** Metric field extractor *)





(** ** Regression evaluator *)

(** C3: the memory-interface and comprehensive-total metrics succeed exactly
    when the measured count is strictly below the threshold, the twiddle-ROM
    metric exactly when it is strictly above; equality gives the warning;
    900 cells against the memory-interface threshold 1000 succeed. *)
Theorem evaluator_strict_policies :
  (forall er x, evaluate_synthesis_results er "memory_interface" x = Some SUCCESS
                <-> x < expected_memory_interface er)
  /\ (forall er x, evaluate_synthesis_results er "comprehensive" x = Some SUCCESS
                   <-> x < expected_total er)
  /\ (forall er x, evaluate_synthesis_results er "twiddle_rom" x = Some SUCCESS
                   <-> expected_twiddle_rom er < x)
  /\ (forall er x, evaluate_synthesis_results er "memory_interface" x = Some SUCCESS
                   \/ evaluate_synthesis_results er "memory_interface" x = Some WARNING)
  /\ (forall er x, evaluate_synthesis_results er "comprehensive" x = Some SUCCESS
                   \/ evaluate_synthesis_results er "comprehensive" x = Some WARNING)
  /\ (forall er x, evaluate_synthesis_results er "twiddle_rom" x = Some SUCCESS
                   \/ evaluate_synthesis_results er "twiddle_rom" x = Some WARNING)
  /\ (forall er, evaluate_synthesis_results er "memory_interface" (expected_memory_interface er)
                 = Some WARNING
                 /\ evaluate_synthesis_results er "comprehensive" (expected_total er) = Some WARNING
                 /\ evaluate_synthesis_results er "twiddle_rom" (expected_twiddle_rom er)
                    = Some WARNING)
  /\ expected_memory_interface default_expected_results = 1000
  /\ evaluate_synthesis_results default_expected_results "memory_interface" 900 = Some SUCCESS.
Proof.
  unfold evaluate_synthesis_results; simpl.
  repeat split; intros;
    repeat match goal with
           | |- context [?a <? ?b] => destruct (Z.ltb_spec a b)
           | H : context [?a <? ?b] |- _ => destruct (Z.ltb_spec a b)
           end;
    try solve [ reflexivity | left; reflexivity | right; reflexivity
              | lia | discriminate ].
  all: lia.
Qed.

(** ** Total cell count of the comprehensive report *)

Lemma stats_truthy_true (s : stats_t) : stats_truthy s = true.
Proof. unfold stats_truthy. apply Nat.ltb_lt. lia. Qed.

Lemma assign_fresh {V} (k : string) (v : V) (d : list (string * V)) :
  ~ In k (map fst d) -> assign k v d = (d ++ [(k, v)])%list.
Proof.
  induction d as [|[k' v'] d IH]; simpl; intro H; [reflexivity|].
  destruct (String.eqb_spec k k') as [->|_]; [tauto|].
  rewrite IH by tauto. reflexivity.
Qed.

Lemma collect_fold (fs : string -> option string) (dir : string) :
  forall mods ms0 t0,
  NoDup (map snd mods) ->
  (forall d, In d (map snd mods) -> ~ In d (map fst ms0)) ->
  fold_left (collect_step fs dir) mods (ms0, t0)
  = ((ms0 ++ flat_map (module_entry fs dir) mods)%list,
     t0 + sum_Z (map (module_cells fs dir) mods)).
Proof.
  induction mods as [|[m d] mods IH]; intros ms0 t0 Hnd Hfresh.
  - simpl. rewrite app_nil_r. f_equal. unfold sum_Z. simpl. lia.
  - simpl in Hnd. inversion Hnd as [|? ? Hd Hnd']; subst.
    cbn [fold_left flat_map map collect_step module_entry module_cells].
    rewrite sum_Z_cons. unfold parse_synthesis_stats.
    destruct (fs (stats_path dir m)) as [content|].
    + rewrite stats_truthy_true.
      rewrite assign_fresh by (apply Hfresh; left; reflexivity).
      rewrite IH.
      * rewrite <- app_assoc. simpl app. unfold get_default.
        destruct (lookup "cells" (metrics (parse_synthesis_stats_content content)));
          f_equal; lia.
      * exact Hnd'.
      * intros d' Hd' Hin. rewrite map_app, in_app_iff in Hin. simpl in Hin.
        destruct Hin as [Hin|[<-|[]]];
          [exact (Hfresh d' (or_intror Hd') Hin) | contradiction].
    + rewrite IH by (exact Hnd' || (intros d' Hd'; apply Hfresh; right; exact Hd')).
      simpl app. f_equal; lia.
Qed.

(** C10: the total handed to the die-size estimator is the sum of the
    [cells] values over the modules whose stats file exists (a record
    without [cells] counting 0), and the per-module summary holds exactly
    those modules, by display name, with their parsed records. *)
Theorem comprehensive_total_cells (fs : string -> option string) (synthesis_dir : string) :
  collect_module_stats fs synthesis_dir
  = (flat_map (fun '(module_name, display_name) =>
                 match fs (stats_path synthesis_dir module_name) with
                 | Some content => [(display_name, parse_synthesis_stats_content content)]
                 | None => []
                 end) modules,
     sum_Z (map (fun '(module_name, _) =>
                   match fs (stats_path synthesis_dir module_name) with
                   | Some content =>
                       match lookup "cells" (metrics (parse_synthesis_stats_content content)) with
                       | Some n => n
                       | None => 0
                       end
                   | None => 0
                   end) modules)).
Proof.
  unfold collect_module_stats.
  rewrite collect_fold.
  - reflexivity.
  - simpl. repeat constructor; simpl; intuition discriminate.
  - intros d _ [].
Qed.

(** ** CellBreakdown invariant *)




Lemma cell_patterns_nodup : NoDup (map fst cell_patterns).
Proof. simpl. repeat constructor; simpl; intuition discriminate. Qed.

Lemma gate_counts_of_flat (content : string) :
  gate_counts_of content
  = flat_map (fun '(gt, marker) =>
                match findall_opt content marker with
                | Some n => [(gt, n)]
                | None => []
                end) gate_patterns.
Proof.
  unfold gate_counts_of. apply flat_map_ext. intros [gt marker].
  unfold findall_opt. destruct (findall_count marker content); reflexivity.
Qed.




(** ** Missing artifacts *)





(** ** Lines of a rendered document *)

Lemma string_app_assoc (a b c : string) : (a ++ b) ++ c = a ++ b ++ c.
Proof. induction a as [|x a IH]; simpl; [reflexivity|]. rewrite IH. reflexivity. Qed.

Lemma split_on_nonempty (sep : ascii) (s : string) :
  exists h t, split_on sep s = h :: t.
Proof.
  induction s as [|c s IH]; simpl; [eauto|].
  destruct (Ascii.eqb c sep); [eauto|].
  destruct IH as [h [t ->]]. eauto.
Qed.

Lemma split_on_sep_app (sep : ascii) (x y : string) :
  split_on sep (x ++ String sep y) = (split_on sep x ++ split_on sep y)%list.
Proof.
  induction x as [|c x IH]; simpl.
  - rewrite Ascii.eqb_refl. reflexivity.
  - rewrite IH. destruct (Ascii.eqb c sep); [reflexivity|].
    destruct (split_on_nonempty sep x) as [h [t ->]]. reflexivity.
Qed.

Lemma split_join_app (l : list string) (x : string) (l' : list string) :
  Forall (fun y => split_on newline y = [y]) l ->
  split_on newline (join nl (l ++ x :: l')) = (l ++ split_on newline (join nl (x :: l')))%list.
Proof.
  induction l as [|a l IH]; intro H; [reflexivity|].
  inversion H as [|? ? Ha Hl]; subst.
  assert (Hj : join nl (a :: (l ++ x :: l')) = a ++ String newline (join nl (l ++ x :: l')))
    by (destruct l; reflexivity).
  simpl app. rewrite Hj, split_on_sep_app, Ha, (IH Hl). reflexivity.
Qed.

Lemma find_app_some {A} (p : A -> bool) (l1 l2 : list A) (y : A) :
  find p l1 = Some y -> find p (l1 ++ l2) = Some y.
Proof.
  induction l1 as [|a l1 IH]; simpl; [discriminate|].
  destruct (p a); [tauto|exact IH].
Qed.

(** The first line of [join nl l] satisfying [p], when it lies among the
    first [n] entries of [l] and none of these holds a newline. *)
Lemma find_lines_firstn (p : string -> bool) (l : list string) (n : nat) (y : string) :
  (n <? List.length l)%nat = true ->
  Forall (fun y => split_on newline y = [y]) (firstn n l) ->
  find p (firstn n l) = Some y ->
  find p (split_on newline (join nl l)) = Some y.
Proof.
  intros Hn HF Hf. rewrite <- (firstn_skipn n l).
  destruct (skipn n l) as [|x l'] eqn:E.
  - apply (f_equal (@List.length _)) in E. rewrite length_skipn in E.
    apply Nat.ltb_lt in Hn. simpl in E. lia.
  - rewrite (split_join_app _ _ _ HF). apply find_app_some. exact Hf.
Qed.

(** C6 (code bug): the comprehensive report built from a single FFT
    Engine stats file with 1234 cells totals 1234 cells, but the memory
    analysis reading that report back takes the text after the first colon
    of the first line containing [Total Gate Count:], which is the heading
    [### **Estimated Total Gate Count:**]: it reads [**], not [1234]. *)
Theorem total_gate_count_read_back (fmt_logic_area fmt_total_area fmt_lut fmt_ff : Z -> string) :
  snd (collect_module_stats engine_stats_fs "../synthesis") = 1234
  /\ lookup "total_gates"
       (overall_improvement
          (analyze_memory_usage_results
             (report_fs (generate_comprehensive_gate_report fmt_logic_area fmt_total_area
                           fmt_lut fmt_ff engine_stats_fs "../synthesis" "2026-10-18 12:00:00"))
             "."))
     = Some "**".
Proof.
  split; [vm_compute; reflexivity|].
  unfold analyze_memory_usage_results, report_fs. cbn [overall_improvement].
  rewrite String.eqb_refl. unfold overall_results, first_line_field, generate_comprehensive_gate_report.
  rewrite (find_lines_firstn _ _ 17 "### **Estimated Total Gate Count:**")
    by (vm_compute; first [reflexivity | repeat constructor]).
  vm_compute. reflexivity.
Qed.

(** ** Netlist module table *)

Lemma incr_ok (k : string) (d : list (string * Z)) :
  keep_module k = true -> Forall module_entry_ok d -> Forall module_entry_ok (incr k d).
Proof.
  intros Hk Hd. induction Hd as [|[k' v] d Hv Hd IH]; simpl.
  - constructor; [split; [simpl; lia|exact Hk]|constructor].
  - destruct (String.eqb k k').
    + destruct Hv as [Hv Hk']. constructor; [split; simpl in *; [lia|exact Hk']|exact Hd].
    + constructor; [exact Hv|exact IH].
Qed.

Lemma module_fold_ok (names : list string) (d : list (string * Z)) :
  Forall module_entry_ok d ->
  Forall module_entry_ok
    (fold_left (fun d name => if keep_module name then incr name d else d) names d).
Proof.
  revert d. induction names as [|n names IH]; intros d Hd; simpl; [exact Hd|].
  apply IH. destruct (keep_module n) eqn:E; [apply incr_ok; assumption|exact Hd].
Qed.

(** C8 (code bug): every entry of the module table has a count of at
    least 1 and a name outside the exclusion list that does not start with
    [\$_]; but a primitive-gate instantiation as Yosys writes it,
    [\$_AND_ _1_ (], is counted under the name [_AND_]: the word pattern
    cannot match [\$], so the exclusion entries never apply. *)
Theorem module_table_primitive_instance :
  (forall content k v, In (k, v) (module_instances_of content) ->
     1 <= v /\ ~ In k excluded_names /\ prefix "\$_" k = false)
  /\ module_instances_of ("  \$_AND_ _1_ (" ++ nl) = [("_AND_", 1)].
Proof.
  split; [|vm_compute; reflexivity].
  intros content k v Hin.
  assert (H := module_fold_ok (module_finditer content) [] (Forall_nil _)).
  rewrite Forall_forall in H. destruct (H (k, v) Hin) as [Hv Hk].
  unfold keep_module in Hk. cbn [fst snd] in Hv, Hk.
  apply andb_prop in Hk. destruct Hk as [H1 H2].
  apply negb_true_iff in H1, H2. split; [exact Hv|split; [|exact H2]].
  intro Hx. assert (existsb (String.eqb k) excluded_names = true) as Hc.
  { apply existsb_exists. exists k. split; [exact Hx|apply String.eqb_refl]. }
  congruence.
Qed.

(** ** The timestamp line *)

(** C9 (as amended): for fixed inputs, the comprehensive report depends
    on the time only through one line [Generated: <now>], and the memory
    analysis report only through one line [**Generated:** <now>]. *)
Theorem timestamp_line_only :
  (forall (fmt_logic_area fmt_total_area fmt_lut fmt_ff : Z -> string) fs synthesis_dir,
     exists P S, forall now,
       generate_comprehensive_gate_report fmt_logic_area fmt_total_area fmt_lut fmt_ff
         fs synthesis_dir now
       = P ++ nl ++ "Generated: " ++ now ++ nl ++ S)
  /\ (forall fs project_root project_name,
        exists P S, forall now,
          generate_memory_analysis_report fs project_root project_name now
          = P ++ nl ++ "**Generated:** " ++ now ++ nl ++ S).
Proof.
  split.
  - intros fl ft flut fff fs dir.
    unfold generate_comprehensive_gate_report, comprehensive_report_lines.
    destruct (collect_module_stats fs dir) as [ms tc].
    exists ("# Fast Fourier Transform IP Gate-Level Analysis Report" ++ nl ++ equals65 ++ nl).
    exists (join nl (report_body fl ft flut fff ms tc)).
    intro now.
    assert (HB : exists b B, report_body fl ft flut fff ms tc = b :: B) by (eexists; eexists; reflexivity).
    destruct HB as [b [B ->]].
    cbn [app join]. rewrite !string_app_assoc. reflexivity.
  - intros fs root pn.
    set (r := analyze_memory_usage_results fs root).
    exists ("# FFT IP Memory Usage Analysis Report" ++ nl ++ "========================================" ++ nl).
    exists (String.concat "" (skipn 3 (memory_report_writes r pn ""))).
    intro now. unfold generate_memory_analysis_report. fold r.
    unfold memory_report_writes. cbn [app skipn String.concat].
    rewrite !string_app_assoc. reflexivity.
Qed.

(** C9 as stated fails for the memory analysis report: two renderings
    at different times differ, yet no line of the report begins with
    [Generated:]; the timestamp line begins with [**Generated:**]. *)
Lemma memory_timestamp_line_prefix :
  let d1 := generate_memory_analysis_report (fun _ => None) "." "fast-fourier-transform-ip"
              "2026-10-18 12:00:00" in
  let d2 := generate_memory_analysis_report (fun _ => None) "." "fast-fourier-transform-ip"
              "2026-10-18 12:00:01" in
  String.eqb d1 d2 = false
  /\ existsb (prefix "Generated:") (split_on newline d1) = false
  /\ nth 3 (split_on newline d1) "" = "**Generated:** 2026-10-18 12:00:00".
Proof. vm_compute. repeat split; reflexivity. Qed.

(* ================================================================== *)
(** * Further properties of the code *)

(** ** The test runner *)

Lemma verification_outcome (fs : string -> option string) (rtl_dir : string)
    (st : runner) :
  fst (run_verification_tests fs rtl_dir st)
  = forallb (fun module =>
               match fs (rtl_path rtl_dir module) with
               | None => true
               | Some content => forallb (fun m => contains m content) (rtl_markers module)
               end) ["memory_interface"; "twiddle_rom"].
Proof.
  unfold run_verification_tests, verification_step, verify_memory_size,
    verify_synthesis_attributes, verify_code_quality, rtl_markers.
  cbn [fold_left forallb]. unfold code_quality_step, check_marker.
  destruct (fs (rtl_path rtl_dir "memory_interface")) as [c1|];
  destruct (fs (rtl_path rtl_dir "twiddle_rom")) as [c2|]; cbn -[contains];
  repeat match goal with
         | |- context [contains ?m ?c] => destruct (contains m c)
         end; reflexivity.
Qed.

Lemma synthesis_outcome (er : expected_results) (reports_dir : string)
    (fs : string -> option string) (yosys : string -> Z * string) (st : runner) :
  fst (run_synthesis_tests er reports_dir fs yosys st)
  = forallb (fun module => Z.eqb (fst (yosys module)) 0) (test_modules ++ ["comprehensive"]).
Proof.
  unfold run_synthesis_tests, run_comprehensive_synthesis. cbn [test_modules fold_left app forallb].
  unfold module_synthesis_step, run_module_synthesis.
  destruct (yosys "memory_interface") as [r1 e1], (yosys "twiddle_rom") as [r2 e2],
    (yosys "fft_control") as [r3 e3], (yosys "comprehensive") as [r4 e4].
  cbn [fst].
  destruct (Z.eqb r1 0), (Z.eqb r2 0), (Z.eqb r3 0), (Z.eqb r4 0); reflexivity.
Qed.

(** X1: the verification tests pass exactly when every RTL file that
    exists contains all of its markers; a missing RTL file never fails them. *)
Theorem run_verification_tests_pass (fs : string -> option string) (rtl_dir : string)
    (st : runner) :
  fst (run_verification_tests fs rtl_dir st)
  = forallb (fun module =>
               match fs (rtl_path rtl_dir module) with
               | None => true
               | Some content => forallb (fun m => contains m content) (rtl_markers module)
               end) ["memory_interface"; "twiddle_rom"].
Proof. apply verification_outcome. Qed.

(** X2: [run_synthesis_tests] reports success exactly when every Yosys run
    (the three test modules and the comprehensive run) returns 0: the
    cell counts and their verdicts never make it fail. *)
Theorem run_synthesis_tests_pass (er : expected_results) (reports_dir : string)
    (fs : string -> option string) (yosys : string -> Z * string) (st : runner) :
  fst (run_synthesis_tests er reports_dir fs yosys st)
  = forallb (fun module => Z.eqb (fst (yosys module)) 0) (test_modules ++ ["comprehensive"]).
Proof. apply synthesis_outcome. Qed.

Lemma evaluate_step_results (er : expected_results) (module : string) (n : Z) (st : runner) :
  synthesis_results (evaluate_step er module n st) = synthesis_results st.
Proof. unfold evaluate_step. destruct (evaluate_synthesis_results er module n); reflexivity. Qed.







(** ** The legacy gate report *)

Lemma flat_map_opt_keys {X} (g : X -> option Z) (t : list (string * X)) (k : string) :
  In k (map fst (flat_map (fun '(key, x) => match g x with Some n => [(key, n)] | None => [] end) t))
  -> In k (map fst t).
Proof.
  induction t as [|[k' x] t IH]; simpl; [tauto|].
  destruct (g x); simpl; [intros [H|H]; [left; exact H|right; apply IH; exact H]|].
  intro H. right. apply IH. exact H.
Qed.

Lemma flat_map_opt_nodup {X} (g : X -> option Z) (t : list (string * X)) :
  NoDup (map fst t) ->
  NoDup (map fst (flat_map (fun '(key, x) => match g x with Some n => [(key, n)] | None => [] end) t)).
Proof.
  induction t as [|[k' x] t IH]; simpl; intro Hnd; [constructor|].
  inversion Hnd as [|? ? Hk Hnd']; subst.
  destruct (g x); simpl; [|apply IH; exact Hnd'].
  constructor; [|apply IH; exact Hnd'].
  intro H. apply Hk. exact (flat_map_opt_keys g t k' H).
Qed.

Lemma gate_counts_nodup (content : string) : NoDup (map fst (gate_counts_of content)).
Proof.
  rewrite gate_counts_of_flat. apply (flat_map_opt_nodup (findall_opt content)).
  exact cell_patterns_nodup.
Qed.

Lemma gate_counts_tags (content t : string) (n : Z) :
  In (t, n) (gate_counts_of content) -> In t (map fst transistor_counts).
Proof.
  rewrite gate_counts_of_flat. intro H.
  apply (in_map fst) in H. change (fst (t, n)) with t in H.
  apply (flat_map_opt_keys (findall_opt content)) in H. exact H.
Qed.

Lemma gate_counts_pos (content t : string) (n : Z) :
  In (t, n) (gate_counts_of content) -> 1 <= n.
Proof.
  unfold gate_counts_of. rewrite in_flat_map. intros [[gt m] [_ H]].
  destruct (findall_count m content) as [|k]; [contradiction|].
  destruct H as [H|[]]. injection H as _ <-. lia.
Qed.

(** The table-driven total against the per-row costs, for a breakdown with
    distinct tags from the cost table. *)
Lemma total_transistors_rows (bd : cell_breakdown_t) :
  NoDup (map fst bd) ->
  (forall t n, In (t, n) bd -> In t (map fst transistor_counts)) ->
  total_transistors bd = spec_transistor_estimate bd.
Proof.
  induction bd as [|[k v] bd IH]; intros Hnd Htags.
  - vm_compute. reflexivity.
  - simpl in Hnd. inversion Hnd as [|? ? Hk Hnd']; subst.
    assert (Hin : In k (map fst transistor_counts)) by (apply (Htags k v); left; reflexivity).
    unfold spec_transistor_estimate. simpl map. rewrite sum_Z_cons.
    fold (spec_transistor_estimate bd).
    rewrite <- IH by (exact Hnd' || (intros t n H; apply (Htags t n); right; exact H)).
    unfold total_transistors, row_transistors.
    rewrite <- table_sum_single by exact Hin.
    rewrite <- sum_Z_map_add. f_equal. apply map_ext. intros [g c].
    unfold get_default. simpl lookup.
    destruct (String.eqb_spec g k) as [->|_].
    + rewrite lookup_not_in by exact Hk. lia.
    + lia.
Qed.

Lemma gate_counts_estimate (content : string) :
  total_transistors (gate_counts_of content) = spec_transistor_estimate (gate_counts_of content).
Proof.
  apply total_transistors_rows; [apply gate_counts_nodup|apply gate_counts_tags].
Qed.

Lemma insert_item_perm (x : string * Z) (l : list (string * Z)) :
  Permutation (insert_item x l) (x :: l).
Proof.
  induction l as [|y l IH]; simpl; [reflexivity|].
  destruct (String.leb (fst x) (fst y)); [reflexivity|].
  eapply perm_trans; [apply perm_skip; exact IH|apply perm_swap].
Qed.

Lemma sort_items_perm (l : list (string * Z)) : Permutation (sort_items l) l.
Proof.
  induction l as [|x l IH]; [reflexivity|].
  unfold sort_items. simpl. fold (sort_items l).
  eapply perm_trans; [apply insert_item_perm|apply perm_skip; exact IH].
Qed.

Lemma sum_Z_perm (l l' : list Z) : Permutation l l' -> sum_Z l = sum_Z l'.
Proof.
  induction 1 as [|x l l' _ IH|x y l|l l' l'' _ IH1 _ IH2].
  - reflexivity.
  - rewrite !sum_Z_cons, IH. reflexivity.
  - rewrite !sum_Z_cons. lia.
  - congruence.
Qed.

Lemma analyze_gates_some (netlist_file content : string) (r : gate_analysis) :
  analyze_gates netlist_file (Some content) = Some r ->
  r = mk_gate_analysis (gate_counts_of content) (module_instances_of content)
        (sum_Z (map snd (gate_counts_of content)))
        (total_transistors (gate_counts_of content)) netlist_file.
Proof. intro H. unfold analyze_gates in H. injection H as <-. reflexivity. Qed.

(** X4: in the Gate Breakdown table of the legacy report, the Count column
    sums to the Primitive Gates total and the Transistors column to the
    Estimated Transistors total printed for the same netlist. *)
Theorem legacy_breakdown_totals (netlist_file content : string) (r : gate_analysis) :
  analyze_gates netlist_file (Some content) = Some r ->
  sum_Z (map (fun '(_, n, _) => n) (breakdown_rows (gate_counts r))) = total_primitive_gates r
  /\ sum_Z (map (fun '(_, _, t) => t) (breakdown_rows (gate_counts r)))
     = total_transistors_field r.
Proof.
  intro H. apply analyze_gates_some in H. subst r.
  cbn [gate_counts total_primitive_gates total_transistors_field].
  rewrite gate_counts_estimate. unfold spec_transistor_estimate, breakdown_rows.
  rewrite !map_map. split.
  - apply sum_Z_perm.
    rewrite (map_ext _ snd) by (intros [g n]; reflexivity).
    apply Permutation_map, sort_items_perm.
  - apply sum_Z_perm.
    rewrite (map_ext _ (fun '(g, n) => row_transistors g n)) by (intros [g n]; reflexivity).
    apply Permutation_map, sort_items_perm.
Qed.

Lemma legacy_breakdown_totals_witness :
  analyze_gates "n.v" (Some example_netlist) = Some example_analysis
  /\ sum_Z (map (fun '(_, n, _) => n) (breakdown_rows (gate_counts example_analysis)))
     = total_primitive_gates example_analysis
  /\ sum_Z (map (fun '(_, _, t) => t) (breakdown_rows (gate_counts example_analysis)))
     = total_transistors_field example_analysis.
Proof.
  split; [vm_compute; reflexivity|].
  apply (legacy_breakdown_totals "n.v" example_netlist). vm_compute. reflexivity.
Defined.

Lemma sum_if_eqb (ts : list string) (k : string) (v : Z) :
  NoDup ts ->
  sum_Z (map (fun t => if String.eqb t k then v else 0) ts)
  = if existsb (String.eqb k) ts then v else 0.
Proof.
  induction ts as [|t ts IH]; intro Hnd; [reflexivity|].
  inversion Hnd as [|? ? Ht Hnd']; subst.
  simpl map. rewrite sum_Z_cons, IH by exact Hnd'.
  simpl existsb. rewrite (String.eqb_sym k t).
  destruct (String.eqb_spec t k) as [->|_]; simpl.
  - assert (existsb (String.eqb k) ts = false) as ->; [|lia].
    apply not_true_iff_false. intro He. apply existsb_exists in He.
    destruct He as [x [Hx Hkx]]. apply String.eqb_eq in Hkx. subst. contradiction.
  - lia.
Qed.

(** Splitting a dict's values by a list of distinct tags. *)
Lemma tag_partition (ts : list string) (gc : cell_breakdown_t) :
  NoDup ts -> NoDup (map fst gc) ->
  sum_Z (map snd gc)
  = sum_Z (map snd (filter (fun '(g, _) => negb (existsb (String.eqb g) ts)) gc))
    + sum_Z (map (fun t => get_default t gc 0) ts).
Proof.
  intro Hts. induction gc as [|[k v] gc IH]; intro Hnd.
  - cbn [map filter]. replace (sum_Z (map _ ts)) with 0; [reflexivity|].
    clear Hts. induction ts as [|t ts IHt]; [reflexivity|].
    simpl map. rewrite sum_Z_cons, <- IHt. reflexivity.
  - simpl in Hnd. inversion Hnd as [|? ? Hk Hnd']; subst.
    specialize (IH Hnd').
    rewrite (map_ext (fun t => get_default t ((k, v) :: gc) 0)
                     (fun t => (if String.eqb t k then v else 0) + get_default t gc 0)).
    2: { intro t. unfold get_default. simpl lookup.
         destruct (String.eqb_spec t k) as [->|_]; simpl;
           [rewrite lookup_not_in by exact Hk; lia|lia]. }
    rewrite sum_Z_map_add, sum_if_eqb by exact Hts.
    cbn [filter map snd].
    destruct (existsb (String.eqb k) ts); cbn [negb map snd]; rewrite ?sum_Z_cons; lia.
Qed.

Lemma sequential_partition (gc : cell_breakdown_t) :
  NoDup (map fst gc) ->
  dff_count gc + combinational_gates gc + get_default "LATCH" gc 0 + get_default "ALDFFE" gc 0
  = sum_Z (map snd gc).
Proof.
  intro Hnd.
  rewrite (tag_partition sequential_tags gc) by
    (exact Hnd || (unfold sequential_tags; repeat constructor; simpl; intuition discriminate)).
  assert (E : sum_Z (map (fun t => get_default t gc 0) sequential_tags)
              = get_default "DFF" gc 0 + (get_default "DFFE" gc 0
                + (get_default "LATCH" gc 0 + (get_default "ALDFFE" gc 0 + 0)))).
  { unfold sequential_tags. cbn [map]. rewrite !sum_Z_cons. reflexivity. }
  rewrite E. unfold dff_count, combinational_gates. lia.
Qed.

(** X5: the Logic Complexity lines of the legacy report split the gates
    into sequential elements (DFF and DFFE) and combinational logic (every
    tag but DFF, DFFE, LATCH and ALDFFE): LATCH and ALDFFE gates are counted
    in neither, and together the three make up the Primitive Gates total. *)
Theorem legacy_logic_partition (netlist_file content : string) (r : gate_analysis) :
  analyze_gates netlist_file (Some content) = Some r ->
  dff_count (gate_counts r) + combinational_gates (gate_counts r)
  + get_default "LATCH" (gate_counts r) 0 + get_default "ALDFFE" (gate_counts r) 0
  = total_primitive_gates r.
Proof.
  intro H. apply analyze_gates_some in H. subst r.
  cbn [gate_counts total_primitive_gates].
  apply sequential_partition, gate_counts_nodup.
Qed.

Lemma legacy_logic_partition_witness :
  analyze_gates "n.v" (Some example_netlist) = Some example_analysis
  /\ dff_count (gate_counts example_analysis) + combinational_gates (gate_counts example_analysis)
     + get_default "LATCH" (gate_counts example_analysis) 0
     + get_default "ALDFFE" (gate_counts example_analysis) 0
     = total_primitive_gates example_analysis.
Proof.
  split; [vm_compute; reflexivity|].
  apply (legacy_logic_partition "n.v" example_netlist). vm_compute. reflexivity.
Defined.

Lemma legacy_excluded_sub (k : string) :
  existsb (String.eqb k) legacy_excluded = true -> existsb (String.eqb k) excluded_names = true.
Proof.
  intro H. apply existsb_exists in H. destruct H as [x [Hx Hk]].
  apply existsb_exists. exists x. split; [simpl in *; tauto|exact Hk].
Qed.

(** X6: the five [\$_X_] names the legacy report excludes never reach it,
    since [analyze_gates] already drops them from the module table; so the
    design style is Hierarchical exactly when the table has a module name
    that does not start with [_], and Flat otherwise. *)
Theorem legacy_design_style (netlist_file content : string) (r : gate_analysis) :
  analyze_gates netlist_file (Some content) = Some r ->
  actual_modules (module_instances r)
  = filter (fun '(k, _) => negb (prefix "_" k)) (module_instances r)
  /\ (design_style r = "Hierarchical"
      <-> exists k v, In (k, v) (module_instances r) /\ prefix "_" k = false).
Proof.
  intro H. apply analyze_gates_some in H. subst r. cbn [module_instances].
  assert (Hok := module_fold_ok (module_finditer content) [] (Forall_nil _)).
  change (Forall module_entry_ok (module_instances_of content)) in Hok.
  rewrite Forall_forall in Hok.
  assert (Hf : actual_modules (module_instances_of content)
               = filter (fun '(k, _) => negb (prefix "_" k)) (module_instances_of content)).
  { unfold actual_modules. apply filter_ext_in. intros [k v] Hin.
    destruct (Hok _ Hin) as [_ Hk]. cbn [fst] in Hk. unfold keep_module in Hk.
    apply andb_prop in Hk. destruct Hk as [H1 _].
    cbv beta iota.
    destruct (existsb (String.eqb k) legacy_excluded) eqn:E.
    - apply legacy_excluded_sub in E. rewrite E in H1. discriminate.
    - rewrite andb_true_r. reflexivity. }
  split; [exact Hf|].
  unfold design_style. cbn [module_instances]. rewrite Hf. unfold is_nonempty.
  destruct (filter _ (module_instances_of content)) as [|[k v] l] eqn:E.
  - split; [discriminate|]. intros [k [v [Hin Hp]]].
    assert (Hx : In (k, v) (filter (fun '(k, _) => negb (prefix "_" k))
                                   (module_instances_of content))).
    { apply filter_In. split; [exact Hin|]. cbv beta iota. rewrite Hp. reflexivity. }
    rewrite E in Hx. contradiction.
  - split; [intros _|reflexivity].
    assert (Hx : In (k, v) (filter (fun '(k, _) => negb (prefix "_" k))
                                   (module_instances_of content)))
      by (rewrite E; left; reflexivity).
    apply filter_In in Hx. destruct Hx as [Hin Hp]. cbv beta iota in Hp.
    exists k, v. split; [exact Hin|]. apply negb_true_iff. exact Hp.
Qed.

Lemma legacy_design_style_witness :
  analyze_gates "n.v" (Some example_netlist) = Some example_analysis
  /\ actual_modules (module_instances example_analysis)
     = filter (fun '(k, _) => negb (prefix "_" k)) (module_instances example_analysis)
  /\ (design_style example_analysis = "Hierarchical"
      <-> exists k v, In (k, v) (module_instances example_analysis) /\ prefix "_" k = false).
Proof.
  split; [vm_compute; reflexivity|].
  apply (legacy_design_style "n.v" example_netlist). vm_compute. reflexivity.
Defined.

Lemma report_cost_range (t : string) : 2 <= get_default t report_costs 6 <= 200.
Proof.
  unfold get_default, report_costs. cbn [lookup].
  repeat match goal with
         | |- context [String.eqb t ?x] => destruct (String.eqb t x); cbv beta iota
         end; lia.
Qed.

Lemma estimate_bounds (bd : cell_breakdown_t) :
  (forall t n, In (t, n) bd -> 0 <= n) ->
  2 * sum_Z (map snd bd) <= spec_transistor_estimate bd <= 200 * sum_Z (map snd bd).
Proof.
  induction bd as [|[t n] bd IH]; intro Hn.
  - unfold spec_transistor_estimate. cbn [map]. change (sum_Z []) with 0. lia.
  - unfold spec_transistor_estimate. cbn [map snd]. rewrite !sum_Z_cons.
    fold (spec_transistor_estimate bd).
    assert (Hn0 : 0 <= n) by (apply (Hn t n); left; reflexivity).
    assert (IH' := IH (fun t' n' H => Hn t' n' (or_intror H))).
    unfold row_transistors. pose proof (report_cost_range t). nia.
Qed.

(** X8: the transistor estimate of a netlist lies between 2 and 200
    transistors per primitive gate (the cheapest and dearest entries of the
    cost table). *)
Theorem gate_transistor_bounds (netlist_file content : string) (r : gate_analysis) :
  analyze_gates netlist_file (Some content) = Some r ->
  2 * total_primitive_gates r <= total_transistors_field r <= 200 * total_primitive_gates r.
Proof.
  intro H. apply analyze_gates_some in H. subst r.
  cbn [total_primitive_gates total_transistors_field].
  rewrite gate_counts_estimate. apply estimate_bounds.
  intros t n Hin. assert (H1 := gate_counts_pos content t n Hin). lia.
Qed.

Lemma gate_transistor_bounds_witness :
  analyze_gates "n.v" (Some example_netlist) = Some example_analysis
  /\ 2 * total_primitive_gates example_analysis <= total_transistors_field example_analysis
     <= 200 * total_primitive_gates example_analysis.
Proof.
  split; [vm_compute; reflexivity|].
  apply (gate_transistor_bounds "n.v" example_netlist). vm_compute. reflexivity.
Defined.

(** ** The summary table of the comprehensive report *)

Lemma collect_module_stats_fst (fs : string -> option string) (synthesis_dir : string) :
  fst (collect_module_stats fs synthesis_dir) = flat_map (module_entry fs synthesis_dir) modules.
Proof.
  unfold collect_module_stats. rewrite collect_fold.
  - reflexivity.
  - simpl. repeat constructor; simpl; intuition discriminate.
  - intros d _ [].
Qed.

(** X7: whichever stats files exist, the Gate Count Summary table of the
    comprehensive report has six rows, and each of the six modules has
    exactly one row, the one that starts with its bold display name. *)
Theorem summary_table_rows (fs : string -> option string) (synthesis_dir : string) :
  let ms := fst (collect_module_stats fs synthesis_dir) in
  List.length (map summary_row ms ++ missing_rows ms) = 6%nat
  /\ forall d, In d (map snd modules) ->
       List.length (filter (prefix ("| **" ++ d ++ "** |")) (map summary_row ms ++ missing_rows ms))
       = 1%nat.
Proof.
  intro ms.
  assert (Ems : ms = flat_map (module_entry fs synthesis_dir) modules)
    by apply collect_module_stats_fst.
  clearbody ms. unfold modules in Ems. cbn [flat_map module_entry] in Ems.
  repeat match type of Ems with
         | context [fs ?p] => destruct (fs p)
         end;
  subst ms;
  repeat match goal with
         | |- context [parse_synthesis_stats_content ?c] =>
             generalize (parse_synthesis_stats_content c); intro
         end;
  (split; [reflexivity|]);
  intros d Hd; simpl in Hd;
  repeat (destruct Hd as [<-|Hd]; [reflexivity|]); contradiction.
Qed.

(** ** The sample word of the cocotb helpers *)

Lemma land_65535 (x : Z) : Z.land x 65535 = x mod 65536.
Proof. change 65535 with (Z.ones 16). rewrite Z.land_ones by lia. reflexivity. Qed.

Lemma pack_sample_eq (real_int imag_int : Z) :
  pack_sample real_int imag_int = real_int mod 65536 * 65536 + imag_int mod 65536.
Proof.
  unfold pack_sample. rewrite !land_65535.
  assert (Hl : Z.land (Z.shiftl (real_int mod 65536) 16) (imag_int mod 65536) = 0).
  { apply Z.bits_inj'. intros n Hn. rewrite Z.land_spec, Z.bits_0.
    destruct (Z.lt_ge_cases n 16).
    + rewrite Z.shiftl_spec_low by lia. reflexivity.
    + change 65536 with (2 ^ 16). rewrite Z.mod_pow2_bits_high by lia.
      apply andb_false_r. }
  rewrite <- (Z.lxor_lor _ _ Hl), <- (Z.add_nocarry_lxor _ _ Hl).
  rewrite Z.shiftl_mul_pow2 by lia. reflexivity.
Qed.

(** X9: [read_output_data] splits a word in the format [load_input_data]
    writes back into the two scaled parts modulo 2^16, the word fitting in
    32 bits; the parts are not sign-extended, so a negative scaled part
    [q] (from -32768 to -1) is read back as [q + 65536]. *)
Theorem sample_word_round_trip (real_int imag_int : Z) :
  unpack_word (pack_sample real_int imag_int) = (real_int mod 65536, imag_int mod 65536)
  /\ 0 <= pack_sample real_int imag_int < 4294967296
  /\ (forall q, -32768 <= q < 0 -> fst (unpack_word (pack_sample q imag_int)) = q + 65536).
Proof.
  assert (Hrt : forall a b, unpack_word (pack_sample a b) = (a mod 65536, b mod 65536)).
  { intros a b. rewrite pack_sample_eq. unfold unpack_word. rewrite !land_65535.
    rewrite Z.shiftr_div_pow2 by lia. change (2 ^ 16) with 65536.
    pose proof (Z.mod_pos_bound a 65536 ltac:(lia)).
    pose proof (Z.mod_pos_bound b 65536 ltac:(lia)).
    rewrite Z.div_add_l by lia. rewrite (Z.div_small (b mod 65536)) by lia.
    rewrite Z.add_0_r, Z.mod_mod by lia. f_equal.
    rewrite Z.add_comm, Z.mod_add by lia. apply Z.mod_mod. lia. }
  split; [apply Hrt|split].
  - rewrite pack_sample_eq.
    pose proof (Z.mod_pos_bound real_int 65536 ltac:(lia)).
    pose proof (Z.mod_pos_bound imag_int 65536 ltac:(lia)). lia.
  - intros q Hq. rewrite Hrt. cbn [fst].
    rewrite <- (Z.mod_add q 1 65536) by lia. apply Z.mod_small. lia.
Qed.

(** ** The test report and the whole suite *)

Lemma assign_Forall {V} (P : string * V -> Prop) (k : string) (v : V) (d : list (string * V)) :
  Forall P d -> (forall k', P (k', v)) -> Forall P (assign k v d).
Proof.
  intros Hd Hv. induction Hd as [|[k' v'] d Hx Hd IH]; simpl.
  - constructor; [apply Hv|constructor].
  - destruct (String.eqb k k'); constructor; auto.
Qed.

Lemma analyze_cells (er : expected_results) (reports_dir : string)
    (fs : string -> option string) (module : string) (st : runner) :
  Forall cells_entry (synthesis_results st) ->
  Forall cells_entry (synthesis_results (analyze_synthesis_results er reports_dir fs module st)).
Proof.
  intro H. unfold analyze_synthesis_results.
  destruct (fs (synthesis_report_path reports_dir module)) as [c|]; [|exact H].
  destruct (search_group "Number of cells:" c) as [ds|]; [|exact H].
  destruct (py_int ds) as [n|msg]; [|exact H].
  rewrite evaluate_step_results. simpl.
  apply assign_Forall; [exact H|intro k'; exists n; reflexivity].
Qed.

Lemma synthesis_cells (er : expected_results) (reports_dir : string)
    (fs : string -> option string) (yosys : string -> Z * string) (st : runner) :
  Forall cells_entry (synthesis_results st) ->
  Forall cells_entry (synthesis_results (snd (run_synthesis_tests er reports_dir fs yosys st))).
Proof.
  intro H. unfold run_synthesis_tests.
  assert (Hf : forall mods b st',
            Forall cells_entry (synthesis_results st') ->
            Forall cells_entry (synthesis_results
              (snd (fold_left (module_synthesis_step er reports_dir fs yosys) mods (b, st'))))).
  { induction mods as [|m mods IH]; intros b st' Hs; [exact Hs|].
    change (fold_left ?f (m :: mods) ?a) with (fold_left f mods (f a m)).
    unfold module_synthesis_step at 2. unfold run_module_synthesis.
    destruct (yosys m) as [rc e]. destruct (Z.eqb rc 0); apply IH; simpl;
      [apply analyze_cells|]; exact Hs. }
  specialize (Hf test_modules true (print_status st "INFO" "Running synthesis tests...") H).
  destruct (fold_left (module_synthesis_step er reports_dir fs yosys) test_modules
              (true, print_status st "INFO" "Running synthesis tests...")) as [b1 st1].
  simpl snd in Hf. unfold run_comprehensive_synthesis.
  destruct (yosys "comprehensive") as [rc e]. destruct (Z.eqb rc 0); simpl;
    [apply analyze_cells|]; exact Hf.
Qed.

(** X10: after the synthesis tests of a fresh runner, every line of the
    Test Results section of the generated report prints a cell count: the
    ["N/A"] fallback of [generate_report] is never used. *)
Theorem report_results_have_counts (er : expected_results) (reports_dir : string)
    (fs : string -> option string) (yosys : string -> Z * string)
    (messages : list (string * string)) :
  Forall (fun line => exists module n,
            line = "- **" ++ module ++ "**: " ++ py_str_int n ++ " cells" ++ nl)
    (result_lines (synthesis_results
       (snd (run_synthesis_tests er reports_dir fs yosys (mk_runner [] messages))))).
Proof.
  assert (H := synthesis_cells er reports_dir fs yosys (mk_runner [] messages) (Forall_nil _)).
  unfold result_lines. apply Forall_map.
  eapply Forall_impl; [|exact H].
  intros [module results] [n Hn]. cbn [snd] in Hn. subst results.
  exists module, n. reflexivity.
Qed.

Lemma deps_outcome (tool_available : string -> bool) (st : runner) :
  fst (check_dependencies tool_available st) = forallb tool_available required_tools.
Proof.
  unfold check_dependencies, required_tools. cbn [filter forallb].
  destruct (tool_available "yosys"), (tool_available "iverilog"), (tool_available "vvp");
    reflexivity.
Qed.

Lemma simulation_outcome (fs : string -> option string) (tb_dir : string)
    (simulate : string -> bool * list (string * string)) (st : runner) :
  fst (run_simulation_tests fs tb_dir simulate st)
  = forallb (fun '(test_file, test_name) =>
               match fs (tb_dir ++ "/" ++ test_file) with
               | Some _ => fst (simulate test_name)
               | None => true
               end) simulation_test_files.
Proof.
  unfold run_simulation_tests, simulation_test_files. cbn [fold_left forallb].
  unfold simulation_step.
  destruct (fs (tb_dir ++ "/" ++ "tb_memory_interface_opt.sv")),
    (fs (tb_dir ++ "/" ++ "tb_twiddle_rom_symmetry.sv"));
  destruct (simulate "memory_interface_opt") as [[|] m1],
    (simulate "twiddle_rom_symmetry") as [[|] m2]; reflexivity.
Qed.

Ltac verdict_tail :=
  cbn [fst snd andb negb];
  split; [reflexivity|];
  split; intro; congruence.

(** X11: the whole suite passes exactly when the three tools are
    available, every existing RTL file has its markers, every existing
    testbench passes its simulation and every Yosys run returns 0; the test
    report is written exactly when the suite passes. *)
Theorem run_all_tests_verdict (er : expected_results)
    (project_root rtl_dir tb_dir reports_dir : string) (fs : string -> option string)
    (tool_available : string -> bool) (simulate : string -> bool * list (string * string))
    (yosys : string -> Z * string) (now duration : string) (st : runner) :
  let result := run_all_tests er project_root rtl_dir tb_dir reports_dir fs tool_available
                  simulate yosys now duration st in
  fst (fst result)
  = forallb tool_available required_tools
    && forallb (fun module =>
                  match fs (rtl_path rtl_dir module) with
                  | None => true
                  | Some content => forallb (fun m => contains m content) (rtl_markers module)
                  end) ["memory_interface"; "twiddle_rom"]
    && forallb (fun '(test_file, test_name) =>
                  match fs (tb_dir ++ "/" ++ test_file) with
                  | Some _ => fst (simulate test_name)
                  | None => true
                  end) simulation_test_files
    && forallb (fun module => Z.eqb (fst (yosys module)) 0) (test_modules ++ ["comprehensive"])
  /\ (snd result <> None <-> fst (fst result) = true).
Proof.
  intro result. unfold result, run_all_tests.
  match goal with |- context [check_dependencies ?t ?s] =>
    pose proof (deps_outcome t s) as Hd; destruct (check_dependencies t s) as [d st1] end.
  cbn [fst] in Hd. subst d.
  destruct (forallb tool_available required_tools); [|verdict_tail].
  cbn [negb].
  match goal with |- context [run_verification_tests ?f ?r ?s] =>
    pose proof (verification_outcome f r s) as Hv; destruct (run_verification_tests f r s) as [v st2] end.
  cbn [fst] in Hv. subst v.
  destruct (forallb _ ["memory_interface"; "twiddle_rom"]); [|verdict_tail].
  cbn [negb].
  match goal with |- context [run_simulation_tests ?f ?t ?m ?s] =>
    pose proof (simulation_outcome f t m s) as Hs; destruct (run_simulation_tests f t m s) as [v st3] end.
  cbn [fst] in Hs. subst v.
  destruct (forallb _ simulation_test_files); [|verdict_tail].
  cbn [negb].
  match goal with |- context [run_synthesis_tests ?e ?r ?f ?y ?s] =>
    pose proof (synthesis_outcome e r f y s) as Hy; destruct (run_synthesis_tests e r f y s) as [v st4] end.
  cbn [fst] in Hy. subst v.
  destruct (forallb _ (test_modules ++ ["comprehensive"])); [|verdict_tail].
  cbn [negb]. destruct (generate_report er reports_dir now st4) as [st5 content].
  verdict_tail.
Qed.
